(** * evdi_gem.c: the buffer-object memory manager of the evdi DRM driver

    A shallow embedding of [module/evdi_gem.c].  Every function of the file
    that works on a buffer object is a computation in a small
    state-and-fault monad over the kernel state the file touches: the heap
    of [evdi_gem_object]s, the handle table of the DRM file, and the log of
    calls made into the rest of the kernel.  The results of those calls are
    supplied by an oracle ([kernel]), so every statement below holds for
    every behaviour of the surrounding kernel.  [evdi_drm_gem_mmap], which
    only edits the flags of a VMA after [drm_gem_mmap], is a function of
    the VMA with that primitive as a parameter. *)

From Stdlib Require Import ZArith List Lia.
From stdpp Require Import base option list gmap.

Local Open Scope Z_scope.

(** ** Platform constants

    [PAGE_SHIFT] and the width of [unsigned long] / [size_t] come from the
    architecture headers, not from the driver. *)

Class Platform : Type := {
  PAGE_SHIFT : nat;
  BITS_PER_LONG : nat
}.

Definition PAGE_SIZE `{Platform} : Z := 2 ^ Z.of_nat PAGE_SHIFT.

(** The platform the concrete runs below are evaluated on. *)
Definition x86_64 : Platform := {| PAGE_SHIFT := 12; BITS_PER_LONG := 64 |}.

(** ** C integer conversions *)

(** Conversion to an unsigned type of [w] bits. *)
Definition wrap (w : nat) (z : Z) : Z := z mod 2 ^ Z.of_nat w.

(** Conversion to a signed type of [w] bits (two's complement). *)
Definition swrap (w : nat) (z : Z) : Z :=
  let m := 2 ^ Z.of_nat w in
  let r := z mod m in
  if Z_lt_dec r (m / 2) then r else r - m.

Definition u32 : Z -> Z := wrap 32.
Definition u64 : Z -> Z := wrap 64.
Definition to_int : Z -> Z := swrap 32.
Definition ulong `{Platform} : Z -> Z := wrap BITS_PER_LONG.

(** [DIV_ROUND_UP(n, d)] is [(((n) + (d) - 1) / (d))]; on a [__u32] operand
    the sum is an [unsigned int]. *)
Definition DIV_ROUND_UP (n d : Z) : Z := u32 (u32 (n + d) - 1) / d.

(** [roundup(x, y)] is [((x + (y - 1)) / y) * y], here on a [uint64_t]. *)
Definition roundup (x y : Z) : Z := u64 (u64 (x + (y - 1)) / y * y).

(** ** Error numbers and fault codes (Linux values) *)

Definition ENOENT : Z := 2.
Definition EAGAIN : Z := 11.
Definition ENOMEM : Z := 12.
Definition ERESTARTSYS : Z := 512.

Definition VM_FAULT_OOM : Z := 0x0001.
Definition VM_FAULT_SIGBUS : Z := 0x0002.
Definition VM_FAULT_NOPAGE : Z := 0x0100.

(** What a function returning a pointer-or-error hands back: a valid pointer,
    or [ERR_PTR(-errno)] for an error number [errno] > 0, the only values
    [IS_ERR] accepts.  The driver's [IS_ERR] tests are the matches on this
    type. *)
Inductive errptr (A : Type) : Type :=
| Ptr (a : A)
| ErrPtr (errno : positive).
Arguments Ptr {A} a.
Arguments ErrPtr {A} errno.

Definition PTR_ERR {A} (p : errptr A) : Z :=
  match p with Ptr _ => 0 | ErrPtr e => Z.neg e end.

(** ** Data model *)

Definition addr := N.
Definition page := N.

Record dma_buf : Type := {
  dmabuf_id : N;
  dmabuf_size : Z
}.

Record dma_buf_attachment : Type := {
  attach_id : N;
  dmabuf : dma_buf
}.

Record sg_table : Type := {
  sgt_id : N;
  sgt_pages : list page
}.

(** [struct drm_gem_object], the fields the driver reads or the DRM core
    maintains on its behalf. *)
Record drm_gem_object : Type := {
  dev : N;
  refcount : Z;
  obj_size : Z;
  import_attach : option dma_buf_attachment;
  vma_node : option Z
}.

(** [struct evdi_gem_object] ([evdi_drv.h]). *)
Record evdi_gem_object : Type := {
  base : drm_gem_object;
  pages : option (list page);
  vmapping : option Z;
  sg : option sg_table
}.

Definition set_base (b : drm_gem_object) (o : evdi_gem_object) : evdi_gem_object :=
  {| base := b; pages := pages o; vmapping := vmapping o; sg := sg o |}.

Definition set_pages (p : option (list page)) (o : evdi_gem_object) : evdi_gem_object :=
  {| base := base o; pages := p; vmapping := vmapping o; sg := sg o |}.

Definition set_vmapping (v : option Z) (o : evdi_gem_object) : evdi_gem_object :=
  {| base := base o; pages := pages o; vmapping := v; sg := sg o |}.

Definition set_sg (t : option sg_table) (o : evdi_gem_object) : evdi_gem_object :=
  {| base := base o; pages := pages o; vmapping := vmapping o; sg := t |}.

Definition set_refcount (n : Z) (b : drm_gem_object) : drm_gem_object :=
  {| dev := dev b; refcount := n; obj_size := obj_size b;
     import_attach := import_attach b; vma_node := vma_node b |}.

Definition set_import_attach (a : option dma_buf_attachment) (b : drm_gem_object)
  : drm_gem_object :=
  {| dev := dev b; refcount := refcount b; obj_size := obj_size b;
     import_attach := a; vma_node := vma_node b |}.

Definition set_vma_node (n : option Z) (b : drm_gem_object) : drm_gem_object :=
  {| dev := dev b; refcount := refcount b; obj_size := obj_size b;
     import_attach := import_attach b; vma_node := n |}.

(** What [kzalloc] hands out: every field zero or NULL. *)
Definition zeroed_object : evdi_gem_object :=
  {| base := {| dev := 0%N; refcount := 0; obj_size := 0;
                import_attach := None; vma_node := None |};
     pages := None; vmapping := None; sg := None |}.

Record drm_mode_create_dumb : Type := {
  height : Z;
  width : Z;
  bpp : Z;
  flags : Z;
  handle : Z;
  pitch : Z;
  size : Z
}.

Record vm_area_struct : Type := {
  vm_start : Z;
  vm_flags : Z;
  vm_private_data : addr
}.

Record vm_fault : Type := {
  virtual_address : Z
}.

(** ** Calls into the rest of the kernel

    One constructor per function the driver calls, with the arguments that
    identify the resource and, where there is one, the result. *)
Inductive event : Type :=
| Call_kzalloc (r : option addr)
| Call_kfree (obj : addr)
| Call_drm_gem_object_init (d : N) (obj : addr) (sz : Z) (r : Z)
| Call_drm_gem_handle_create (obj : addr) (r : Z) (h : Z)
| Call_drm_gem_object_release (obj : addr)
| Call_drm_gem_object_unreference (obj : addr)
| Call_vm_insert_page (va : Z) (p : page) (r : Z)
| Call_drm_gem_get_pages (obj : addr) (r : errptr (list page))
| Call_drm_gem_put_pages (obj : addr) (p : option (list page))
| Call_drm_free_large (p : option (list page))
| Call_dma_buf_vmap (b : dma_buf) (r : option Z)
| Call_vmap (p : option (list page)) (count : Z) (r : option Z)
| Call_dma_buf_vunmap (b : dma_buf) (v : option Z)
| Call_vunmap (v : Z)
| Call_drm_prime_gem_destroy (obj : addr) (t : option sg_table)
| Call_get_device (d : N)
| Call_put_device (d : N)
| Call_drm_gem_free_mmap_offset (obj : addr)
| Call_mutex_lock (d : N)
| Call_mutex_unlock (d : N)
| Call_drm_gem_object_lookup (h : Z) (r : option addr)
| Call_drm_gem_create_mmap_offset (obj : addr) (r : Z)
| Call_drm_malloc_ab (n : Z) (ok : bool)
| Call_DRM_ERROR (n : Z)
| Call_drm_prime_sg_to_page_addr_arrays (t : sg_table) (n : Z)
| Call_dma_buf_attach (b : dma_buf) (d : N) (r : errptr dma_buf_attachment)
| Call_get_dma_buf (b : dma_buf)
| Call_dma_buf_map_attachment (a : dma_buf_attachment) (r : errptr sg_table)
| Call_dma_buf_unmap_attachment (a : dma_buf_attachment) (t : sg_table)
| Call_dma_buf_detach (b : dma_buf) (a : dma_buf_attachment)
| Call_dma_buf_put (b : dma_buf).

(** The answers of the surrounding kernel.  Each is indexed by the number of
    calls logged so far, so two calls of one primitive may answer
    differently. *)
Record kernel : Type := {
  kzalloc_ok : nat -> bool;
  drm_gem_object_init_ret : nat -> Z;
  drm_gem_handle_create_ret : nat -> Z * Z;
  vm_insert_page_ret : nat -> Z;
  drm_gem_get_pages_ret : nat -> errptr (list page);
  dma_buf_vmap_ret : nat -> option Z;
  vmap_ret : nat -> option Z;
  drm_gem_create_mmap_offset_ret : nat -> Z * Z;
  drm_malloc_ab_ok : nat -> bool;
  dma_buf_attach_ret : nat -> errptr dma_buf_attachment;
  dma_buf_map_attachment_ret : nat -> errptr sg_table
}.

(** ** Kernel state and the monad *)

Record kstate : Type := {
  heap : gmap addr evdi_gem_object;
  handles : gmap Z addr;
  klog : list event
}.

(** A computation either completes with a value, or dereferences memory it
    must not (a NULL or dangling object, an index outside an array). *)
Inductive result (A : Type) : Type :=
| Done (a : A) (s : kstate)
| Oops (s : kstate).
Arguments Done {A} a s.
Arguments Oops {A} s.

Definition M (A : Type) : Type := kstate -> result A.

Definition ret {A} (a : A) : M A := fun s => Done a s.

Definition bind {A B} (m : M A) (f : A -> M B) : M B :=
  fun s => match m s with
           | Done a s' => f a s'
           | Oops s' => Oops s'
           end.

Declare Scope kmonad_scope.
Delimit Scope kmonad_scope with kmonad.
Notation "'do' x <- m ; f" := (bind m (fun x => f))
  (at level 10, x name, m at level 100, f at level 200) : kmonad_scope.
Notation "'do' ' pat <- m ; f" := (bind m (fun x => match x with pat => f end))
  (at level 10, pat pattern, m at level 100, f at level 200) : kmonad_scope.
Notation "m ;;; f" := (bind m (fun _ => f))
  (at level 100, f at level 200, right associativity) : kmonad_scope.
Local Open Scope kmonad_scope.

Definition oops {A} : M A := fun s => Oops s.

Definition clock : M nat := fun s => Done (length (klog s)) s.

(** The state after one more logged call, and after writing an object. *)
Definition logged (e : event) (s : kstate) : kstate :=
  {| heap := heap s; handles := handles s; klog := klog s ++ [e] |}.

Definition updated (obj : addr) (o : evdi_gem_object) (s : kstate) : kstate :=
  {| heap := <[obj := o]> (heap s); handles := handles s; klog := klog s |}.

Definition emit (e : event) : M unit := fun s => Done tt (logged e s).

(** [*obj] read as a whole; a fault when [obj] is not a live object. *)
Definition load (obj : addr) : M evdi_gem_object :=
  fun s => match heap s !! obj with
           | Some o => Done o s
           | None => Oops s
           end.

Definition store (obj : addr) (o : evdi_gem_object) : M unit :=
  fun s => match heap s !! obj with
           | Some _ => Done tt (updated obj o s)
           | None => Oops s
           end.

Definition the_heap : M (gmap addr evdi_gem_object) := fun s => Done (heap s) s.
Definition the_handles : M (gmap Z addr) := fun s => Done (handles s) s.

Definition put_heap (h : gmap addr evdi_gem_object) : M unit :=
  fun s => Done tt {| heap := h; handles := handles s; klog := klog s |}.

Definition put_handles (t : gmap Z addr) : M unit :=
  fun s => Done tt {| heap := heap s; handles := t; klog := klog s |}.

Definition modify (obj : addr) (f : evdi_gem_object -> evdi_gem_object) : M unit :=
  do o <- load obj; store obj (f o).

Definition modify_base (obj : addr) (f : drm_gem_object -> drm_gem_object) : M unit :=
  modify obj (fun o => set_base (f (base o)) o).

Section Driver.
Context `{Platform} (K : kernel).

(** ** The kernel primitives the driver calls

    Each logs its call; those that return something ask the oracle; those
    whose contract is to change a field of the object change it. *)

Definition kzalloc : M (option addr) :=
  do t <- clock;
  if kzalloc_ok K t then
    do h <- the_heap;
    let p := fresh (dom h) in
    put_heap (<[p := zeroed_object]> h) ;;;
    emit (Call_kzalloc (Some p)) ;;;
    ret (Some p)
  else
    emit (Call_kzalloc None) ;;; ret None.

Definition kfree (obj : addr) : M unit :=
  do h <- the_heap;
  put_heap (delete obj h) ;;;
  emit (Call_kfree obj).

(** Initialises the base on success: device, size, a reference count of 1. *)
Definition drm_gem_object_init (d : N) (obj : addr) (sz : Z) : M Z :=
  do t <- clock;
  let r := drm_gem_object_init_ret K t in
  (if decide (r = 0) then
     modify_base obj (fun b =>
       {| dev := d; refcount := 1; obj_size := sz;
          import_attach := import_attach b; vma_node := vma_node b |})
   else ret tt) ;;;
  emit (Call_drm_gem_object_init d obj sz r) ;;;
  ret r.

(** On success the handle table holds a reference of its own. *)
Definition drm_gem_handle_create (obj : addr) : M (Z * Z) :=
  do t <- clock;
  let '(r, h) := drm_gem_handle_create_ret K t in
  (if decide (r = 0) then
     modify_base obj (fun b => set_refcount (refcount b + 1) b) ;;;
     do tbl <- the_handles;
     put_handles (<[h := obj]> tbl)
   else ret tt) ;;;
  emit (Call_drm_gem_handle_create obj r h) ;;;
  ret (r, h).

Definition drm_gem_object_release (obj : addr) : M unit :=
  emit (Call_drm_gem_object_release obj).

(** Drops one reference.  The dispatch of the final teardown when the count
    reaches zero belongs to the DRM core; the teardown itself is
    [evdi_gem_free_object] below. *)
Definition drm_gem_object_unreference (obj : addr) : M unit :=
  modify_base obj (fun b => set_refcount (refcount b - 1) b) ;;;
  emit (Call_drm_gem_object_unreference obj).

(** Finds the object of a handle and takes a reference on it. *)
Definition drm_gem_object_lookup (h : Z) : M (option addr) :=
  do tbl <- the_handles;
  match tbl !! h with
  | Some obj =>
      modify_base obj (fun b => set_refcount (refcount b + 1) b) ;;;
      emit (Call_drm_gem_object_lookup h (Some obj)) ;;;
      ret (Some obj)
  | None =>
      emit (Call_drm_gem_object_lookup h None) ;;; ret None
  end.

Definition vm_insert_page (va : Z) (p : page) : M Z :=
  do t <- clock;
  let r := vm_insert_page_ret K t in
  emit (Call_vm_insert_page va p r) ;;; ret r.

Definition drm_gem_get_pages (obj : addr) : M (errptr (list page)) :=
  do t <- clock;
  let r := drm_gem_get_pages_ret K t in
  emit (Call_drm_gem_get_pages obj r) ;;; ret r.

(** Only the call is recorded, with the array it was given, NULL included:
    what the DRM core does with the array is not part of this file. *)
Definition drm_gem_put_pages (obj : addr) (p : option (list page)) : M unit :=
  emit (Call_drm_gem_put_pages obj p).

Definition drm_free_large (p : option (list page)) : M unit :=
  emit (Call_drm_free_large p).

Definition dma_buf_vmap (b : dma_buf) : M (option Z) :=
  do t <- clock;
  let r := dma_buf_vmap_ret K t in
  emit (Call_dma_buf_vmap b r) ;;; ret r.

Definition vmap (p : option (list page)) (count : Z) : M (option Z) :=
  do t <- clock;
  let r := vmap_ret K t in
  emit (Call_vmap p count r) ;;; ret r.

(** Only the call is recorded, with the address it was given, NULL
    included. *)
Definition dma_buf_vunmap (b : dma_buf) (v : option Z) : M unit :=
  emit (Call_dma_buf_vunmap b v).

Definition vunmap (v : Z) : M unit := emit (Call_vunmap v).

Definition drm_prime_gem_destroy (obj : addr) (t : option sg_table) : M unit :=
  emit (Call_drm_prime_gem_destroy obj t).

Definition get_device (d : N) : M unit := emit (Call_get_device d).
Definition put_device (d : N) : M unit := emit (Call_put_device d).
Definition mutex_lock (d : N) : M unit := emit (Call_mutex_lock d).
Definition mutex_unlock (d : N) : M unit := emit (Call_mutex_unlock d).

Definition drm_gem_free_mmap_offset (obj : addr) : M unit :=
  modify_base obj (set_vma_node None) ;;;
  emit (Call_drm_gem_free_mmap_offset obj).

(** Allocates the offset node on first use and keeps it afterwards. *)
Definition drm_gem_create_mmap_offset (obj : addr) : M Z :=
  do t <- clock;
  let '(r, start) := drm_gem_create_mmap_offset_ret K t in
  (if decide (r = 0) then
     modify_base obj (fun b =>
       match vma_node b with
       | Some _ => b
       | None => set_vma_node (Some start) b
       end)
   else ret tt) ;;;
  emit (Call_drm_gem_create_mmap_offset obj r) ;;;
  ret r.

Definition drm_vma_node_offset_addr (b : drm_gem_object) : Z :=
  match vma_node b with
  | Some start => u64 (start * PAGE_SIZE)
  | None => 0
  end.

(** An array of [n] page references, not yet filled in. *)
Definition drm_malloc_ab (n : Z) : M (option (list page)) :=
  do t <- clock;
  let ok := drm_malloc_ab_ok K t in
  emit (Call_drm_malloc_ab n ok) ;;;
  ret (if ok then Some (replicate (Z.to_nat n) 0%N) else None).

(** Fills the first [n] slots of the object's page array from the table. *)
Definition drm_prime_sg_to_page_addr_arrays (t : sg_table) (obj : addr) (n : Z)
  : M unit :=
  modify obj (fun o =>
    set_pages
      (match pages o with
       | Some arr =>
           let src := take (Z.to_nat n) (sgt_pages t) in
           Some (take (length arr) (src ++ drop (length src) arr))
       | None => None
       end) o) ;;;
  emit (Call_drm_prime_sg_to_page_addr_arrays t n).

Definition DRM_ERROR (n : Z) : M unit := emit (Call_DRM_ERROR n).

Definition dma_buf_attach (b : dma_buf) (d : N) : M (errptr dma_buf_attachment) :=
  do t <- clock;
  let r := dma_buf_attach_ret K t in
  emit (Call_dma_buf_attach b d r) ;;; ret r.

Definition get_dma_buf (b : dma_buf) : M unit := emit (Call_get_dma_buf b).
Definition dma_buf_put (b : dma_buf) : M unit := emit (Call_dma_buf_put b).

Definition dma_buf_map_attachment (a : dma_buf_attachment) : M (errptr sg_table) :=
  do t <- clock;
  let r := dma_buf_map_attachment_ret K t in
  emit (Call_dma_buf_map_attachment a r) ;;; ret r.

Definition dma_buf_unmap_attachment (a : dma_buf_attachment) (t : sg_table) : M unit :=
  emit (Call_dma_buf_unmap_attachment a t).

Definition dma_buf_detach (b : dma_buf) (a : dma_buf_attachment) : M unit :=
  emit (Call_dma_buf_detach b a).

(** ** The driver *)

(** [evdi_gem_alloc_object] *)
Definition evdi_gem_alloc_object (d : N) (sz : Z) : M (option addr) :=
  do p <- kzalloc;
  match p with
  | None => ret None
  | Some obj =>
      do r <- drm_gem_object_init d obj sz;
      if decide (r <> 0) then kfree obj ;;; ret None
      else ret (Some obj)
  end.

(** [evdi_gem_create]; the second component is what is written to
    [*handle_p], if anything. *)
Definition evdi_gem_create (d : N) (sz : Z) : M (Z * option Z) :=
  let sz := roundup sz PAGE_SIZE in
  do p <- evdi_gem_alloc_object d (ulong sz);
  match p with
  | None => ret (- ENOMEM, None)
  | Some obj =>
      do '(r, h) <- drm_gem_handle_create obj;
      if decide (r <> 0) then
        drm_gem_object_release obj ;;;
        kfree obj ;;;
        ret (r, None)
      else
        drm_gem_object_unreference obj ;;;
        ret (0, Some h)
  end.

(** [evdi_dumb_create]; returns the status and the updated [args]. *)
Definition evdi_dumb_create (d : N) (args : drm_mode_create_dumb)
  : M (Z * drm_mode_create_dumb) :=
  let pitch' := u32 (width args * DIV_ROUND_UP (bpp args) 8) in
  let size' := u64 (u32 (pitch' * height args)) in
  do '(r, h) <- evdi_gem_create d size';
  ret (r, {| height := height args; width := width args; bpp := bpp args;
             flags := flags args;
             handle := match h with Some h' => h' | None => handle args end;
             pitch := pitch'; size := size' |}).

(** [page_offset] of [evdi_gem_fault]: an [unsigned int] holding
    [((unsigned long)virtual_address - vm_start) >> PAGE_SHIFT]. *)
Definition fault_page_offset (vma : vm_area_struct) (vmf : vm_fault) : Z :=
  u32 (Z.shiftr (ulong (ulong (virtual_address vmf) - vm_start vma))
                (Z.of_nat PAGE_SHIFT)).

(** [evdi_gem_fault] *)
Definition evdi_gem_fault (vma : vm_area_struct) (vmf : vm_fault) : M Z :=
  let obj := vm_private_data vma in
  let page_offset := fault_page_offset vma vmf in
  do o <- load obj;
  match pages o with
  | None => ret VM_FAULT_SIGBUS
  | Some arr =>
      match arr !! Z.to_nat page_offset with
      | None => oops
      | Some pg =>
          do r <- vm_insert_page (ulong (virtual_address vmf)) pg;
          if decide (r = - EAGAIN \/ r = 0 \/ r = - ERESTARTSYS)
          then ret VM_FAULT_NOPAGE
          else if decide (r = - ENOMEM) then ret VM_FAULT_OOM
          else ret VM_FAULT_SIGBUS
      end
  end.

(** [evdi_gem_get_pages] *)
Definition evdi_gem_get_pages (obj : addr) : M Z :=
  do o <- load obj;
  match pages o with
  | Some _ => ret 0
  | None =>
      do p <- drm_gem_get_pages obj;
      match p with
      | ErrPtr _ => ret (PTR_ERR p)
      | Ptr arr => modify obj (set_pages (Some arr)) ;;; ret 0
      end
  end.

(** [evdi_gem_put_pages] *)
Definition evdi_gem_put_pages (obj : addr) : M unit :=
  do o <- load obj;
  match import_attach (base o) with
  | Some _ =>
      drm_free_large (pages o) ;;;
      modify obj (set_pages None)
  | None =>
      drm_gem_put_pages obj (pages o) ;;;
      modify obj (set_pages None)
  end.

(** [evdi_gem_vmap] *)
Definition evdi_gem_vmap (obj : addr) : M Z :=
  do o <- load obj;
  let page_count := to_int (obj_size (base o) / PAGE_SIZE) in
  match import_attach (base o) with
  | Some att =>
      do v <- dma_buf_vmap (dmabuf att);
      modify obj (set_vmapping v) ;;;
      match v with None => ret (- ENOMEM) | Some _ => ret 0 end
  | None =>
      do r <- evdi_gem_get_pages obj;
      if decide (r <> 0) then ret r
      else
        do o' <- load obj;
        do v <- vmap (pages o') page_count;
        modify obj (set_vmapping v) ;;;
        match v with None => ret (- ENOMEM) | Some _ => ret 0 end
  end.

(** [evdi_gem_vunmap] *)
Definition evdi_gem_vunmap (obj : addr) : M unit :=
  do o <- load obj;
  match import_attach (base o) with
  | Some att =>
      dma_buf_vunmap (dmabuf att) (vmapping o) ;;;
      modify obj (set_vmapping None)
  | None =>
      match vmapping o with
      | Some v => vunmap v ;;; modify obj (set_vmapping None)
      | None => ret tt
      end ;;;
      evdi_gem_put_pages obj
  end.

(** [evdi_gem_free_object] *)
Definition evdi_gem_free_object (obj : addr) : M unit :=
  do o <- load obj;
  match vmapping o with
  | Some _ => evdi_gem_vunmap obj
  | None => ret tt
  end ;;;
  do o <- load obj;
  match import_attach (base o) with
  | Some _ =>
      drm_prime_gem_destroy obj (sg o) ;;;
      put_device (dev (base o))
  | None => ret tt
  end ;;;
  do o <- load obj;
  match pages o with
  | Some _ => evdi_gem_put_pages obj
  | None => ret tt
  end ;;;
  drm_gem_free_mmap_offset obj.

(** [evdi_gem_mmap]; the second component is what is written to [*offset],
    if anything. *)
Definition evdi_gem_mmap (d : N) (h : Z) : M (Z * option Z) :=
  mutex_lock d ;;;
  do p <- drm_gem_object_lookup h;
  do res <-
    match p with
    | None => ret (- ENOENT, None)
    | Some obj =>
        do res <-
          (do r <- evdi_gem_get_pages obj;
           if decide (r <> 0) then ret (r, None)
           else
             do r <- drm_gem_create_mmap_offset obj;
             if decide (r <> 0) then ret (r, None)
             else
               do o <- load obj;
               ret (0, Some (drm_vma_node_offset_addr (base o))));
        drm_gem_object_unreference obj ;;;
        ret res
    end;
  mutex_unlock d ;;;
  ret res.

(** [evdi_prime_create]; the second component is [*obj_p]. *)
Definition evdi_prime_create (d : N) (sz : Z) (t : sg_table)
  : M (Z * option addr) :=
  let npages := to_int (sz / PAGE_SIZE) in
  do p <- evdi_gem_alloc_object d (ulong (npages * PAGE_SIZE));
  match p with
  | None => ret (- ENOMEM, None)
  | Some obj =>
      modify obj (set_sg (Some t)) ;;;
      do arr <- drm_malloc_ab npages;
      modify obj (set_pages arr) ;;;
      match arr with
      | None =>
          DRM_ERROR npages ;;;
          ret (- ENOMEM, None)
      | Some _ =>
          drm_prime_sg_to_page_addr_arrays t obj npages ;;;
          ret (0, Some obj)
      end
  end.

(** The tail of [evdi_gem_prime_import] from the label [fail_detach]. *)
Definition fail_detach (d : N) (b : dma_buf) (attach : dma_buf_attachment)
  (r : Z) : M (Z + addr) :=
  dma_buf_detach b attach ;;;
  dma_buf_put b ;;;
  put_device d ;;;
  ret (inl r).

(** The tail of [evdi_gem_prime_import] from the label [fail_unmap]. *)
Definition fail_unmap (d : N) (b : dma_buf) (attach : dma_buf_attachment)
  (t : sg_table) (r : Z) : M (Z + addr) :=
  dma_buf_unmap_attachment attach t ;;;
  fail_detach d b attach r.

(** [evdi_gem_prime_import]; [inl r] is [ERR_PTR(r)] (also what [ERR_CAST]
    of an error pointer gives), [inr u] the address of the new object. *)
Definition evdi_gem_prime_import (d : N) (b : dma_buf) : M (Z + addr) :=
  get_device d ;;;
  do attach <- dma_buf_attach b d;
  match attach with
  | ErrPtr _ =>
      put_device d ;;;
      ret (inl (PTR_ERR attach))
  | Ptr att =>
      get_dma_buf b ;;;
      do sgp <- dma_buf_map_attachment att;
      match sgp with
      | ErrPtr _ => fail_detach d b att (PTR_ERR sgp)
      | Ptr t =>
          do '(r, uobj) <- evdi_prime_create d (ulong (dmabuf_size b)) t;
          if decide (r <> 0) then fail_unmap d b att t r
          else
            match uobj with
            | None => oops
            | Some u =>
                modify_base u (set_import_attach (Some att)) ;;;
                ret (inr u)
            end
      end
  end.

End Driver.

(** ** Reading a run *)

Definition value {A} (r : result A) : option A :=
  match r with Done a _ => Some a | Oops _ => None end.

Definition final {A} (r : result A) : kstate :=
  match r with Done _ s => s | Oops s => s end.

(** The calls logged on the way from [s] to [s']. *)
Definition emitted (s s' : kstate) : list event :=
  drop (length (klog s)) (klog s').

Definition is_unreference (obj : addr) (e : event) : bool :=
  match e with
  | Call_drm_gem_object_unreference p => bool_decide (p = obj)
  | _ => false
  end.

Definition is_page_allocation (e : event) : bool :=
  match e with
  | Call_drm_gem_get_pages _ (Ptr _) => true
  | _ => false
  end.

(** Calls that tear down a kernel mapping. *)
Definition is_unmap (e : event) : bool :=
  match e with
  | Call_vunmap _ | Call_dma_buf_vunmap _ _ => true
  | _ => false
  end.

(** Calls that give pages or a page array back. *)
Definition is_page_release (e : event) : bool :=
  match e with
  | Call_drm_gem_put_pages _ _ | Call_drm_free_large _ => true
  | _ => false
  end.

(** Calls that end the import relationship at teardown. *)
Definition is_import_release (e : event) : bool :=
  match e with
  | Call_drm_prime_gem_destroy _ _ | Call_put_device _ => true
  | _ => false
  end.

(** The call that gives the mmap offset back. *)
Definition is_offset_release (e : event) : bool :=
  match e with Call_drm_gem_free_mmap_offset _ => true | _ => false end.

(** Calls that free the memory of an object. *)
Definition is_object_free (e : event) : bool :=
  match e with
  | Call_kfree _ | Call_drm_gem_object_release _ => true
  | _ => false
  end.

(** Calls that give back something an import acquired. *)
Definition is_import_undo (e : event) : bool :=
  match e with
  | Call_dma_buf_unmap_attachment _ _ | Call_dma_buf_detach _ _
  | Call_dma_buf_put _ | Call_put_device _ => true
  | _ => false
  end.

(** Every call of [l] matching [P] comes before every call matching [Q]. *)
Definition all_before (P Q : event -> bool) (l : list event) : Prop :=
  forall i j e1 e2,
    l !! i = Some e1 -> l !! j = Some e2 -> Q e1 = true -> P e2 = true ->
    (j < i)%nat.

(** ** The specification's own words, to compare the code with *)

(** The outcomes of [resolve_fault] as the specification names them. *)
Inductive Outcome : Type :=
| Resolved
| RetryNoPage
| OutOfMemory
| FatalBusError.

(** The specification's outcome mapping for an insertion result [r]. *)
Definition spec_fault_outcome (r : Z) : Outcome :=
  if decide (r = 0) then Resolved
  else if decide (r = - EAGAIN \/ r = - ERESTARTSYS) then RetryNoPage
  else if decide (r = - ENOMEM) then OutOfMemory
  else FatalBusError.

(** [ceil(n/d)] over the integers. *)
Definition ceil_div (n d : Z) : Z := (n + d - 1) / d.

(** [pitch = width * ceil(bpp/8)] and [size = pitch * height] over the
    integers. *)
Definition spec_pitch (w b : Z) : Z := w * ceil_div b 8.
Definition spec_size (w b h : Z) : Z := spec_pitch w b * h.

(** The undo of a failed fourth import step in reverse acquisition order:
    drop the foreign-buffer reference (step 3), detach (step 2), release the
    device reference (step 1). *)
Definition spec_symmetric_unwind (d : N) (b : dma_buf) (a : dma_buf_attachment)
  : list event :=
  [Call_dma_buf_put b; Call_dma_buf_detach b a; Call_put_device d].

(** The four teardown steps of an object [o] at [obj], in the order the
    specification gives them. *)
Definition teardown_unmap (obj : addr) (o : evdi_gem_object) : list event :=
  match vmapping o with
  | None => []
  | Some v =>
      match import_attach (base o) with
      | Some att => [Call_dma_buf_vunmap (dmabuf att) (Some v)]
      | None => [Call_vunmap v; Call_drm_gem_put_pages obj (pages o)]
      end
  end.

Definition teardown_import (obj : addr) (o : evdi_gem_object) : list event :=
  match import_attach (base o) with
  | Some _ => [Call_drm_prime_gem_destroy obj (sg o); Call_put_device (dev (base o))]
  | None => []
  end.

Definition teardown_pages (obj : addr) (o : evdi_gem_object) : list event :=
  match pages o, import_attach (base o), vmapping o with
  | None, _, _ => []
  | Some _, Some _, _ => [Call_drm_free_large (pages o)]
  | Some _, None, Some _ => []
  | Some _, None, None => [Call_drm_gem_put_pages obj (pages o)]
  end.

Definition teardown_offset (obj : addr) : list event :=
  [Call_drm_gem_free_mmap_offset obj].

(** ** Concrete kernels and states for the runs below *)

Definition the_dmabuf : dma_buf := {| dmabuf_id := 1%N; dmabuf_size := 8192 |}.
Definition the_attachment : dma_buf_attachment :=
  {| attach_id := 1%N; dmabuf := the_dmabuf |}.
Definition the_sg : sg_table := {| sgt_id := 1%N; sgt_pages := [20%N; 21%N] |}.

(** A kernel in which every call succeeds. *)
Definition willing : kernel :=
  {| kzalloc_ok := fun _ => true;
     drm_gem_object_init_ret := fun _ => 0;
     drm_gem_handle_create_ret := fun _ => (0, 1);
     vm_insert_page_ret := fun _ => 0;
     drm_gem_get_pages_ret := fun _ => Ptr [10%N; 11%N];
     dma_buf_vmap_ret := fun _ => Some 0xffffc90000000000;
     vmap_ret := fun _ => Some 0xffffc90000000000;
     drm_gem_create_mmap_offset_ret := fun _ => (0, 0x100000);
     drm_malloc_ab_ok := fun _ => true;
     dma_buf_attach_ret := fun _ => Ptr the_attachment;
     dma_buf_map_attachment_ret := fun _ => Ptr the_sg |}.

Definition with_insert_ret (r : Z) (k : kernel) : kernel :=
  {| kzalloc_ok := kzalloc_ok k;
     drm_gem_object_init_ret := drm_gem_object_init_ret k;
     drm_gem_handle_create_ret := drm_gem_handle_create_ret k;
     vm_insert_page_ret := fun _ => r;
     drm_gem_get_pages_ret := drm_gem_get_pages_ret k;
     dma_buf_vmap_ret := dma_buf_vmap_ret k;
     vmap_ret := vmap_ret k;
     drm_gem_create_mmap_offset_ret := drm_gem_create_mmap_offset_ret k;
     drm_malloc_ab_ok := drm_malloc_ab_ok k;
     dma_buf_attach_ret := dma_buf_attach_ret k;
     dma_buf_map_attachment_ret := dma_buf_map_attachment_ret k |}.

Definition with_get_pages_ret (r : errptr (list page)) (k : kernel) : kernel :=
  {| kzalloc_ok := kzalloc_ok k;
     drm_gem_object_init_ret := drm_gem_object_init_ret k;
     drm_gem_handle_create_ret := drm_gem_handle_create_ret k;
     vm_insert_page_ret := vm_insert_page_ret k;
     drm_gem_get_pages_ret := fun _ => r;
     dma_buf_vmap_ret := dma_buf_vmap_ret k;
     vmap_ret := vmap_ret k;
     drm_gem_create_mmap_offset_ret := drm_gem_create_mmap_offset_ret k;
     drm_malloc_ab_ok := drm_malloc_ab_ok k;
     dma_buf_attach_ret := dma_buf_attach_ret k;
     dma_buf_map_attachment_ret := dma_buf_map_attachment_ret k |}.

Definition with_map_attachment_ret (r : errptr sg_table) (k : kernel) : kernel :=
  {| kzalloc_ok := kzalloc_ok k;
     drm_gem_object_init_ret := drm_gem_object_init_ret k;
     drm_gem_handle_create_ret := drm_gem_handle_create_ret k;
     vm_insert_page_ret := vm_insert_page_ret k;
     drm_gem_get_pages_ret := drm_gem_get_pages_ret k;
     dma_buf_vmap_ret := dma_buf_vmap_ret k;
     vmap_ret := vmap_ret k;
     drm_gem_create_mmap_offset_ret := drm_gem_create_mmap_offset_ret k;
     drm_malloc_ab_ok := drm_malloc_ab_ok k;
     dma_buf_attach_ret := dma_buf_attach_ret k;
     dma_buf_map_attachment_ret := fun _ => r |}.

Definition with_malloc_ab (ok : bool) (k : kernel) : kernel :=
  {| kzalloc_ok := kzalloc_ok k;
     drm_gem_object_init_ret := drm_gem_object_init_ret k;
     drm_gem_handle_create_ret := drm_gem_handle_create_ret k;
     vm_insert_page_ret := vm_insert_page_ret k;
     drm_gem_get_pages_ret := drm_gem_get_pages_ret k;
     dma_buf_vmap_ret := dma_buf_vmap_ret k;
     vmap_ret := vmap_ret k;
     drm_gem_create_mmap_offset_ret := drm_gem_create_mmap_offset_ret k;
     drm_malloc_ab_ok := fun _ => ok;
     dma_buf_attach_ret := dma_buf_attach_ret k;
     dma_buf_map_attachment_ret := dma_buf_map_attachment_ret k |}.

Definition boot : kstate := {| heap := ∅; handles := ∅; klog := [] |}.

(** A two-page local object of device 1, optionally with pages and a
    kernel mapping. *)
Definition local_object (p : option (list page)) (v : option Z) : evdi_gem_object :=
  {| base := {| dev := 1%N; refcount := 1; obj_size := 8192;
                import_attach := None; vma_node := None |};
     pages := p; vmapping := v; sg := None |}.

(** The same, imported from [the_dmabuf]. *)
Definition imported_object (p : option (list page)) (v : option Z) : evdi_gem_object :=
  {| base := {| dev := 1%N; refcount := 1; obj_size := 8192;
                import_attach := Some the_attachment; vma_node := None |};
     pages := p; vmapping := v; sg := Some the_sg |}.

(** A state with one object at address 7, reachable through handle 1. *)
Definition one_object (o : evdi_gem_object) : kstate :=
  {| heap := {[ 7%N := o ]}; handles := {[ 1 := 7%N ]}; klog := [] |}.

Definition the_vma : vm_area_struct :=
  {| vm_start := 0x7f0000000000; vm_flags := 0; vm_private_data := 7%N |}.

Definition fault_at (off : Z) : vm_fault :=
  {| virtual_address := 0x7f0000000000 + off |}.

(** The scenario of the specification: create a 100 x 50 buffer at 32 bits
    per pixel, prepare its user mapping, fault its first page in, tear it
    down. *)
Definition five_pages : kernel :=
  with_get_pages_ret (Ptr [10%N; 11%N; 12%N; 13%N; 14%N]) willing.

Definition scenario : M (Z * drm_mode_create_dumb * (Z * option Z) * Z) :=
  do cr <- evdi_dumb_create (H := x86_64) five_pages 1%N
             {| height := 50; width := 100; bpp := 32; flags := 0;
                handle := 0; pitch := 0; size := 0 |};
  do mm <- evdi_gem_mmap (H := x86_64) five_pages 1%N (handle (snd cr));
  do tbl <- the_handles;
  match tbl !! handle (snd cr) with
  | None => oops
  | Some obj =>
      do v <- evdi_gem_fault (H := x86_64) five_pages
                {| vm_start := 0x7f0000000000; vm_flags := 0;
                   vm_private_data := obj |} (fault_at 0);
      evdi_gem_free_object obj ;;;
      ret (fst cr, snd cr, mm, v)
  end.

(** ** The flags of a user mapping *)

Definition VM_PFNMAP : Z := 0x00000400.
Definition VM_MIXEDMAP : Z := 0x10000000.

(** [evdi_drm_gem_mmap].  [drm_gem_mmap] belongs to the DRM core and is taken
    as a parameter: it returns a status and the VMA as it has set it up.
    [~VM_PFNMAP] is an [int] widened to [unsigned long], so every bit above
    the flag is set in the mask, as in [Z.lnot]. *)
Definition evdi_drm_gem_mmap
  (drm_gem_mmap : vm_area_struct -> Z * vm_area_struct)
  (vma : vm_area_struct) : Z * vm_area_struct :=
  let '(r, vma) := drm_gem_mmap vma in
  if decide (r <> 0) then (r, vma)
  else
    let f := Z.land (vm_flags vma) (Z.lnot VM_PFNMAP) in
    let f := Z.lor f VM_MIXEDMAP in
    (r, {| vm_start := vm_start vma; vm_flags := f;
           vm_private_data := vm_private_data vma |}).

(** ** Counting calls *)

Definition count (P : event -> bool) (l : list event) : nat :=
  length (List.filter P l).

Definition is_get_device (e : event) : bool :=
  match e with Call_get_device _ => true | _ => false end.
Definition is_put_device (e : event) : bool :=
  match e with Call_put_device _ => true | _ => false end.
Definition is_attach (e : event) : bool :=
  match e with Call_dma_buf_attach _ _ (Ptr _) => true | _ => false end.
Definition is_detach (e : event) : bool :=
  match e with Call_dma_buf_detach _ _ => true | _ => false end.
Definition is_get_dma_buf (e : event) : bool :=
  match e with Call_get_dma_buf _ => true | _ => false end.
Definition is_dma_buf_put (e : event) : bool :=
  match e with Call_dma_buf_put _ => true | _ => false end.
Definition is_map_attachment (e : event) : bool :=
  match e with Call_dma_buf_map_attachment _ (Ptr _) => true | _ => false end.
Definition is_unmap_attachment (e : event) : bool :=
  match e with Call_dma_buf_unmap_attachment _ _ => true | _ => false end.
Definition is_mutex_lock (e : event) : bool :=
  match e with Call_mutex_lock _ => true | _ => false end.
Definition is_mutex_unlock (e : event) : bool :=
  match e with Call_mutex_unlock _ => true | _ => false end.

(** Calls that release what a local object owns, and calls that release what
    an imported object holds. *)
Definition is_local_release (e : event) : bool :=
  match e with
  | Call_drm_gem_put_pages _ _ | Call_vunmap _ => true
  | _ => false
  end.

Definition is_foreign_release (e : event) : bool :=
  match e with
  | Call_drm_free_large _ | Call_dma_buf_vunmap _ _
  | Call_drm_prime_gem_destroy _ _ | Call_put_device _ => true
  | _ => false
  end.

(** The object [drm_gem_object_init] leaves behind on success. *)
Definition fresh_object (d : N) (sz : Z) : evdi_gem_object :=
  {| base := {| dev := d; refcount := 1; obj_size := sz;
                import_attach := None; vma_node := None |};
     pages := None; vmapping := None; sg := None |}.



Definition small_request : drm_mode_create_dumb :=
  {| height := 50; width := 100; bpp := 32; flags := 0;
     handle := 0; pitch := 0; size := 0 |}.

(** A kernel whose offset manager, and one whose [vmap], answers as told. *)
Definition with_mmap_offset_ret (r : Z * Z) (k : kernel) : kernel :=
  {| kzalloc_ok := kzalloc_ok k;
     drm_gem_object_init_ret := drm_gem_object_init_ret k;
     drm_gem_handle_create_ret := drm_gem_handle_create_ret k;
     vm_insert_page_ret := vm_insert_page_ret k;
     drm_gem_get_pages_ret := drm_gem_get_pages_ret k;
     dma_buf_vmap_ret := dma_buf_vmap_ret k;
     vmap_ret := vmap_ret k;
     drm_gem_create_mmap_offset_ret := fun _ => r;
     drm_malloc_ab_ok := drm_malloc_ab_ok k;
     dma_buf_attach_ret := dma_buf_attach_ret k;
     dma_buf_map_attachment_ret := dma_buf_map_attachment_ret k |}.

Definition with_vmap_ret (v : option Z) (k : kernel) : kernel :=
  {| kzalloc_ok := kzalloc_ok k;
     drm_gem_object_init_ret := drm_gem_object_init_ret k;
     drm_gem_handle_create_ret := drm_gem_handle_create_ret k;
     vm_insert_page_ret := vm_insert_page_ret k;
     drm_gem_get_pages_ret := drm_gem_get_pages_ret k;
     dma_buf_vmap_ret := dma_buf_vmap_ret k;
     vmap_ret := fun _ => v;
     drm_gem_create_mmap_offset_ret := drm_gem_create_mmap_offset_ret k;
     drm_malloc_ab_ok := drm_malloc_ab_ok k;
     dma_buf_attach_ret := dma_buf_attach_ret k;
     dma_buf_map_attachment_ret := dma_buf_map_attachment_ret k |}.

(** * Proofs *)

(** ** Reading logs and objects *)

Lemma emitted_app s s' l : klog s' = klog s ++ l -> emitted s s' = l.
Proof. intros E. unfold emitted. rewrite E. apply drop_app_length. Qed.

Lemma set_pages_absent o : pages o = None -> set_pages None o = o.
Proof. destruct o; simpl; intros ->; reflexivity. Qed.

(** ** Symbolic execution of the monad *)

(** Unfold the driver, the primitives and the monad. *)
Ltac kunfold :=
  unfold evdi_gem_prime_import, fail_unmap, fail_detach, evdi_prime_create,
    evdi_gem_mmap, evdi_gem_free_object, evdi_gem_vunmap, evdi_gem_vmap,
    evdi_gem_put_pages, evdi_gem_get_pages, evdi_gem_fault, evdi_dumb_create,
    evdi_gem_create, evdi_gem_alloc_object,
    kzalloc, kfree, drm_gem_object_init, drm_gem_handle_create,
    drm_gem_object_release, drm_gem_object_unreference, drm_gem_object_lookup,
    vm_insert_page, drm_gem_get_pages, drm_gem_put_pages, drm_free_large,
    dma_buf_vmap, vmap, dma_buf_vunmap, vunmap, drm_prime_gem_destroy,
    get_device, put_device, mutex_lock, mutex_unlock, drm_gem_free_mmap_offset,
    drm_gem_create_mmap_offset, drm_malloc_ab, drm_prime_sg_to_page_addr_arrays,
    DRM_ERROR, dma_buf_attach, get_dma_buf, dma_buf_put, dma_buf_map_attachment,
    dma_buf_unmap_attachment, dma_buf_detach,
    modify_base, modify, the_heap, the_handles, put_heap, put_handles,
    bind, ret, oops, load, store, emit, clock in *.

(** Reduce, leaving arithmetic and the allocator's choice of address alone. *)
Ltac ksimpl :=
  cbn -[wrap swrap u32 u64 to_int ulong roundup DIV_ROUND_UP PAGE_SIZE
        fault_page_offset Z.mul Z.div Z.add Z.sub Z.opp Z.pow Z.shiftr
        Z.to_nat fresh dom take drop replicate] in *.

(** One step: a read of what was just written, a known scrutinee, or a
    reduction. *)
Ltac kstep :=
  first
    [ rewrite lookup_insert_eq
    | match goal with
      | H : ?x = _ |- context [match ?x with _ => _ end] => rewrite H
      end
    | progress ksimpl ].

Ltac krun := kunfold; repeat kstep.

(** Replace [emitted s s'] by the calls appended to the log of [s]. *)
Ltac know_emitted :=
  match goal with
  | |- context [emitted ?a ?b] =>
      erewrite (emitted_app a b)
        by (simpl; rewrite <- ?app_assoc; reflexivity)
  end.

(** Case analysis on membership in an explicit log. *)
Ltac in_log :=
  repeat match goal with
         | H : In _ _ |- _ => progress simpl in H
         | H : _ \/ _ |- _ => destruct H as [H|H]; try discriminate H
         | H : False |- _ => destruct H
         end.

(** Settle the tests on return values. *)
Ltac kdecide :=
  match goal with
  | |- context [decide (?a <> ?a)] =>
      rewrite (decide_False (P := a <> a)) by congruence
  | |- context [decide (Z.neg ?e <> 0)] =>
      rewrite (decide_True (P := Z.neg e <> 0)) by discriminate
  | Hne : ?a <> ?b |- context [decide (?a <> ?b)] =>
      rewrite (decide_True (P := a <> b)) by exact Hne
  | Hne : ?a <> ?b |- context [decide (?a = ?b)] =>
      rewrite (decide_False (P := a = b)) by exact Hne
  | |- context [decide (?a = ?a)] =>
      rewrite (decide_True (P := a = a)) by reflexivity
  end.

Ltac kgo := repeat first [kstep | kdecide].

(** Put the time of a call in the form [length (klog s) + n]. *)
Ltac ktime :=
  rewrite ?length_app in *; cbn [length] in *;
  rewrite <- ?Nat.add_assoc in *; cbn [Nat.add] in *.

(** Use a hypothesis on what the kernel answers. *)
Ltac koracle :=
  match goal with
  | Hx : ?f ?k ?t = _ |- context [?f ?k ?t] => rewrite Hx
  end.

Ltac kconst :=
  match goal with
  | |- context [decide (- ENOMEM <> 0)] =>
      rewrite (decide_True (P := - ENOMEM <> 0)) by (unfold ENOMEM; lia)
  end.

Ltac kall := repeat first [kstep | kdecide | kconst | koracle | progress ktime].

(** ** Claim C1: the outcome of a fault *)

Section Fault.
Context `{Platform} (K : kernel).

Lemma evdi_gem_fault_unmaterialized vma vmf s o :
  heap s !! vm_private_data vma = Some o ->
  pages o = None ->
  evdi_gem_fault K vma vmf s = Done VM_FAULT_SIGBUS s.
Proof. intros Ho Hp. krun. reflexivity. Qed.

(** C1 (as the code has it).  A fault on an object without pages ends in
    [VM_FAULT_SIGBUS].  With pages, and the page index inside the array, the
    page is handed to [vm_insert_page] once and its result [r] decides:
    [-EAGAIN], [-ERESTARTSYS] and also success ([0]) give [VM_FAULT_NOPAGE];
    [-ENOMEM] gives [VM_FAULT_OOM]; anything else [VM_FAULT_SIGBUS]. *)
Theorem evdi_gem_fault_outcome vma vmf s o :
  heap s !! vm_private_data vma = Some o ->
  (pages o = None ->
   evdi_gem_fault K vma vmf s = Done VM_FAULT_SIGBUS s) /\
  (forall arr pg,
     pages o = Some arr ->
     arr !! Z.to_nat (fault_page_offset vma vmf) = Some pg ->
     let r := vm_insert_page_ret K (length (klog s)) in
     exists v s',
       evdi_gem_fault K vma vmf s = Done v s' /\
       heap s' = heap s /\
       klog s' = klog s ++ [Call_vm_insert_page (ulong (virtual_address vmf)) pg r] /\
       (r = 0 \/ r = - EAGAIN \/ r = - ERESTARTSYS -> v = VM_FAULT_NOPAGE) /\
       (r = - ENOMEM -> v = VM_FAULT_OOM) /\
       (r <> 0 -> r <> - EAGAIN -> r <> - ERESTARTSYS -> r <> - ENOMEM ->
        v = VM_FAULT_SIGBUS)).
Proof.
  intros Ho. split.
  - intros Hp. eapply evdi_gem_fault_unmaterialized; eauto.
  - intros arr pg Hp Hpg r. krun.
    fold r. unfold EAGAIN, ERESTARTSYS, ENOMEM in *.
    repeat case_decide; (eexists _, _; split; [reflexivity|]); ksimpl;
      repeat split; try reflexivity; intros; lia.
Qed.

End Fault.

Lemma evdi_gem_fault_outcome_witness :
  value (evdi_gem_fault (H := x86_64) (with_insert_ret (- ENOMEM) willing)
           the_vma (fault_at 4096)
           (one_object (local_object (Some [10%N; 11%N]) None)))
  = Some VM_FAULT_OOM.
Proof.
  destruct (evdi_gem_fault_outcome (H := x86_64)
              (with_insert_ret (- ENOMEM) willing) the_vma (fault_at 4096)
              (one_object (local_object (Some [10%N; 11%N]) None))
              (local_object (Some [10%N; 11%N]) None) eq_refl) as [_ Hin].
  destruct (Hin [10%N; 11%N] 11%N eq_refl eq_refl)
    as (v & s' & Hrun & _ & _ & _ & Hoom & _).
  rewrite Hrun. simpl. f_equal. apply Hoom. reflexivity.
Defined.

(** C1 (as stated) fails: a successful insertion and a retry condition end in
    the same fault code, so no reading of the codes keeps [Resolved] and
    [RetryNoPage] apart. *)
Lemma evdi_gem_fault_success_is_nopage :
  let s := one_object (local_object (Some [10%N; 11%N]) None) in
  let run r := value (evdi_gem_fault (H := x86_64) (with_insert_ret r willing)
                        the_vma (fault_at 0) s) in
  spec_fault_outcome 0 = Resolved /\
  spec_fault_outcome (- EAGAIN) = RetryNoPage /\
  run 0 = Some VM_FAULT_NOPAGE /\
  run (- EAGAIN) = Some VM_FAULT_NOPAGE /\
  (forall code : Outcome -> Z,
     run 0 = Some (code (spec_fault_outcome 0)) ->
     run (- EAGAIN) = Some (code (spec_fault_outcome (- EAGAIN))) ->
     code Resolved = code RetryNoPage).
Proof.
  assert (R0 : value (evdi_gem_fault (H := x86_64) (with_insert_ret 0 willing)
                 the_vma (fault_at 0)
                 (one_object (local_object (Some [10%N; 11%N]) None)))
               = Some VM_FAULT_NOPAGE) by reflexivity.
  assert (R1 : value (evdi_gem_fault (H := x86_64)
                 (with_insert_ret (- EAGAIN) willing) the_vma (fault_at 0)
                 (one_object (local_object (Some [10%N; 11%N]) None)))
               = Some VM_FAULT_NOPAGE) by reflexivity.
  cbv zeta. repeat split; try assumption.
  intros code H0 H1. rewrite R0 in H0. rewrite R1 in H1.
  change (spec_fault_outcome 0) with Resolved in H0.
  change (spec_fault_outcome (- EAGAIN)) with RetryNoPage in H1.
  congruence.
Qed.

(** ** Claim C6: materializing pages *)

Section Pages.
Context `{Platform} (K : kernel).

Lemma get_pages_present obj o s :
  heap s !! obj = Some o -> is_Some (pages o) ->
  evdi_gem_get_pages K obj s = Done 0 s.
Proof. intros Ho [arr Hp]. krun. reflexivity. Qed.

Lemma get_pages_allocates obj o arr s :
  heap s !! obj = Some o -> pages o = None ->
  drm_gem_get_pages_ret K (length (klog s)) = Ptr arr ->
  evdi_gem_get_pages K obj s =
    Done 0 (updated obj (set_pages (Some arr) o)
              (logged (Call_drm_gem_get_pages obj (Ptr arr)) s)).
Proof. intros Ho Hp Hk. krun. reflexivity. Qed.

Lemma get_pages_fails obj o e s :
  heap s !! obj = Some o -> pages o = None ->
  drm_gem_get_pages_ret K (length (klog s)) = ErrPtr e ->
  evdi_gem_get_pages K obj s =
    Done (Z.neg e) (logged (Call_drm_gem_get_pages obj (ErrPtr e)) s).
Proof. intros Ho Hp Hk. krun. reflexivity. Qed.

(** C6.  Two calls of [evdi_gem_get_pages] in a row both return.  If the
    pages are already there the call succeeds at once and changes nothing,
    not even the log; after a successful call the next one is of that kind;
    over the two calls the allocator hands out pages at most once; and when
    the allocator fails its error is returned with the heap as it was, the
    refused call being all that happened. *)
Theorem evdi_gem_get_pages_idempotent obj o s :
  heap s !! obj = Some o ->
  exists r1 s1 r2 s2,
    evdi_gem_get_pages K obj s = Done r1 s1 /\
    evdi_gem_get_pages K obj s1 = Done r2 s2 /\
    (is_Some (pages o) -> r1 = 0 /\ s1 = s) /\
    (r1 = 0 -> r2 = 0 /\ s2 = s1) /\
    (length (List.filter is_page_allocation (emitted s s2)) <= 1)%nat /\
    (forall e, pages o = None ->
       drm_gem_get_pages_ret K (length (klog s)) = ErrPtr e ->
       r1 = Z.neg e /\ heap s1 = heap s /\
       emitted s s1 = [Call_drm_gem_get_pages obj (ErrPtr e)]).
Proof.
  intros Ho. destruct (pages o) as [arr|] eqn:Hp.
  - assert (Hs : is_Some (pages o)) by (rewrite Hp; eauto).
    exists 0, s, 0, s. rewrite (get_pages_present _ _ _ Ho Hs).
    split; [reflexivity|]. split; [reflexivity|].
    split; [auto|]. split; [auto|]. split.
    + unfold emitted. rewrite drop_all. simpl. lia.
    + intros; discriminate.
  - destruct (drm_gem_get_pages_ret K (length (klog s))) as [arr|e] eqn:Hk.
    + set (s1 := updated obj (set_pages (Some arr) o)
                   (logged (Call_drm_gem_get_pages obj (Ptr arr)) s)).
      exists 0, s1, 0, s1.
      rewrite (get_pages_allocates _ _ _ _ Ho Hp Hk). fold s1.
      assert (Ho1 : heap s1 !! obj = Some (set_pages (Some arr) o))
        by apply lookup_insert_eq.
      rewrite (get_pages_present _ _ _ Ho1) by (simpl; eauto).
      split; [reflexivity|]. split; [reflexivity|].
      split; [intros [? ?]; discriminate|]. split; [auto|]. split.
      * rewrite (emitted_app s s1 [Call_drm_gem_get_pages obj (Ptr arr)])
          by reflexivity. simpl. lia.
      * intros; discriminate.
    + set (s1 := logged (Call_drm_gem_get_pages obj (ErrPtr e)) s).
      assert (Ho1 : heap s1 !! obj = Some o) by exact Ho.
      rewrite (get_pages_fails _ _ _ _ Ho Hp Hk). fold s1.
      assert (Hfail : forall e0, None = @None (list page) ->
                @ErrPtr (list page) e = ErrPtr e0 ->
                Z.neg e = Z.neg e0 /\ heap s1 = heap s /\
                emitted s s1 = [Call_drm_gem_get_pages obj (ErrPtr e0)]).
      { intros e0 _ [= <-]. split; [reflexivity|]. split; [reflexivity|].
        apply emitted_app. reflexivity. }
      destruct (drm_gem_get_pages_ret K (length (klog s1))) as [arr|e'] eqn:Hk1.
      * exists (Z.neg e), s1, 0. eexists.
        rewrite (get_pages_allocates _ _ _ _ Ho1 Hp Hk1).
        split; [reflexivity|]. split; [reflexivity|].
        split; [intros [? ?]; discriminate|]. split; [discriminate|].
        split; [|exact Hfail].
        erewrite emitted_app; [|simpl; rewrite <- app_assoc; reflexivity].
        simpl. lia.
      * exists (Z.neg e), s1, (Z.neg e'). eexists.
        rewrite (get_pages_fails _ _ _ _ Ho1 Hp Hk1).
        split; [reflexivity|]. split; [reflexivity|].
        split; [intros [? ?]; discriminate|]. split; [discriminate|].
        split; [|exact Hfail].
        erewrite emitted_app; [|simpl; rewrite <- app_assoc; reflexivity].
        simpl. lia.
Qed.
End Pages.

Lemma evdi_gem_get_pages_idempotent_witness :
  exists r1 s1 r2 s2,
    evdi_gem_get_pages (with_get_pages_ret (ErrPtr 12) willing) 7%N
      (one_object (local_object None None)) = Done r1 s1 /\
    evdi_gem_get_pages (with_get_pages_ret (ErrPtr 12) willing) 7%N s1
      = Done r2 s2 /\
    r1 = - ENOMEM /\ heap s1 = heap (one_object (local_object None None)).
Proof.
  destruct (evdi_gem_get_pages_idempotent
              (with_get_pages_ret (ErrPtr 12) willing) 7%N
              (local_object None None) (one_object (local_object None None))
              eq_refl)
    as (r1 & s1 & r2 & s2 & R1 & R2 & _ & _ & _ & Hfail).
  exists r1, s1, r2, s2.
  destruct (Hfail 12%positive eq_refl eq_refl) as (E1 & E2 & _).
  repeat split; assumption.
Defined.

(** ** Claim C2: unmapping twice *)

Section Unmap.

Lemma put_pages_run obj o s :
  heap s !! obj = Some o ->
  evdi_gem_put_pages obj s =
    Done tt (updated obj (set_pages None o)
               (logged (match import_attach (base o) with
                        | Some _ => Call_drm_free_large (pages o)
                        | None => Call_drm_gem_put_pages obj (pages o)
                        end) s)).
Proof.
  intros Ho. destruct (import_attach (base o)) eqn:Hi; krun; reflexivity.
Qed.

Lemma vunmap_imported obj o att s :
  heap s !! obj = Some o -> import_attach (base o) = Some att ->
  evdi_gem_vunmap obj s =
    Done tt (updated obj (set_vmapping None o)
               (logged (Call_dma_buf_vunmap (dmabuf att) (vmapping o)) s)).
Proof. intros Ho Hi. krun. reflexivity. Qed.

Lemma vunmap_local_mapped obj o v s :
  heap s !! obj = Some o -> import_attach (base o) = None ->
  vmapping o = Some v ->
  evdi_gem_vunmap obj s =
    Done tt (updated obj (set_pages None (set_vmapping None o))
               (logged (Call_drm_gem_put_pages obj (pages o))
                  (updated obj (set_vmapping None o)
                     (logged (Call_vunmap v) s)))).
Proof. intros Ho Hi Hv. krun. reflexivity. Qed.

Lemma vunmap_local_unmapped obj o s :
  heap s !! obj = Some o -> import_attach (base o) = None ->
  vmapping o = None ->
  evdi_gem_vunmap obj s =
    Done tt (updated obj (set_pages None o)
               (logged (Call_drm_gem_put_pages obj (pages o)) s)).
Proof. intros Ho Hi Hv. krun. reflexivity. Qed.

(** C2 (as the code has it).  A second [evdi_gem_vunmap] right after a
    first is not free of effect: it makes exactly one call, handing a NULL
    reference to the release primitive once more ([dma_buf_vunmap] with no
    address for an import, [drm_gem_put_pages] with no page array
    otherwise).  The driver does nothing else: with the primitives taken as
    returning, as they are modelled here, both calls return and the second
    leaves the heap and the handle table as the first left them (no
    mapping, and for a local object no pages).  [evdi_gem_put_pages] makes
    its release call whether or not there is a page array, always leaves
    the page array reference NULL, and on an object that has no page array
    leaves the heap as it was. *)
Theorem evdi_gem_vunmap_twice obj o s :
  heap s !! obj = Some o ->
  exists s1 s2 o1,
    evdi_gem_vunmap obj s = Done tt s1 /\
    heap s1 !! obj = Some o1 /\
    vmapping o1 = None /\
    (import_attach (base o) = None -> pages o1 = None) /\
    evdi_gem_vunmap obj s1 = Done tt s2 /\
    heap s2 = heap s1 /\
    handles s2 = handles s1 /\
    emitted s1 s2 =
      match import_attach (base o) with
      | Some att => [Call_dma_buf_vunmap (dmabuf att) None]
      | None => [Call_drm_gem_put_pages obj None]
      end /\
    exists s3 o3,
      evdi_gem_put_pages obj s = Done tt s3 /\
      emitted s s3 =
        [match import_attach (base o) with
         | Some _ => Call_drm_free_large (pages o)
         | None => Call_drm_gem_put_pages obj (pages o)
         end] /\
      heap s3 !! obj = Some o3 /\
      pages o3 = None /\
      (pages o = None -> heap s3 = heap s).
Proof.
  intros Ho.
  assert (Hput : exists s3 o3,
             evdi_gem_put_pages obj s = Done tt s3 /\
             emitted s s3 =
               [match import_attach (base o) with
                | Some _ => Call_drm_free_large (pages o)
                | None => Call_drm_gem_put_pages obj (pages o)
                end] /\
             heap s3 !! obj = Some o3 /\ pages o3 = None /\
             (pages o = None -> heap s3 = heap s)).
  { rewrite (put_pages_run _ _ _ Ho). eexists _, _.
    split; [reflexivity|].
    split; [apply emitted_app; reflexivity|].
    split; [apply lookup_insert_eq|].
    split; [reflexivity|]. intros Hp. simpl.
    rewrite (set_pages_absent _ Hp). apply insert_id, Ho. }
  destruct (import_attach (base o)) as [att|] eqn:Hi.
  - rewrite (vunmap_imported _ _ _ _ Ho Hi).
    eexists _, _, _. split; [reflexivity|].
    split; [apply lookup_insert_eq|]. split; [reflexivity|].
    split; [discriminate|].
    erewrite vunmap_imported; [|apply lookup_insert_eq|exact Hi].
    split; [reflexivity|]. simpl.
    split; [apply insert_insert_eq|]. split; [reflexivity|].
    split; [|exact Hput]. apply emitted_app. reflexivity.
  - destruct (vmapping o) as [v|] eqn:Hv.
    + rewrite (vunmap_local_mapped _ _ _ _ Ho Hi Hv).
      eexists _, _, _. split; [reflexivity|].
      split; [apply lookup_insert_eq|]. split; [reflexivity|].
      split; [reflexivity|].
      erewrite vunmap_local_unmapped;
        [|apply lookup_insert_eq|exact Hi|reflexivity].
      split; [reflexivity|]. simpl.
      split; [apply insert_insert_eq|]. split; [reflexivity|].
      split; [|exact Hput]. apply emitted_app. reflexivity.
    + rewrite (vunmap_local_unmapped _ _ _ Ho Hi Hv).
      eexists _, _, _. split; [reflexivity|].
      split; [apply lookup_insert_eq|]. split; [exact Hv|].
      split; [reflexivity|].
      erewrite vunmap_local_unmapped;
        [|apply lookup_insert_eq|exact Hi|exact Hv].
      split; [reflexivity|]. simpl.
      split; [apply insert_insert_eq|]. split; [reflexivity|].
      split; [|exact Hput]. apply emitted_app. reflexivity.
Qed.

End Unmap.


Lemma evdi_gem_vunmap_twice_witness :
  exists s1 s2,
    evdi_gem_vunmap 7%N
      (one_object (local_object (Some [10%N; 11%N]) (Some 0xffffc90000000000)))
      = Done tt s1 /\
    evdi_gem_vunmap 7%N s1 = Done tt s2 /\
    heap s2 = heap s1 /\
    emitted s1 s2 = [Call_drm_gem_put_pages 7%N None].
Proof.
  destruct (evdi_gem_vunmap_twice 7%N
              (local_object (Some [10%N; 11%N]) (Some 0xffffc90000000000))
              (one_object (local_object (Some [10%N; 11%N])
                             (Some 0xffffc90000000000)))
              eq_refl)
    as (s1 & s2 & o1 & R1 & _ & _ & _ & R2 & Hh & _ & He & _).
  exists s1, s2. repeat split; assumption.
Defined.

(** C2 (as stated) fails: the second call is not a no-op.  On a local object
    it calls [drm_gem_put_pages] with a NULL page array, on an imported one
    [dma_buf_vunmap] with a NULL address, so the state it returns is not the
    state it was given. *)
Lemma evdi_gem_vunmap_second_call :
  (exists s1 s2,
     evdi_gem_vunmap 7%N
       (one_object (local_object (Some [10%N; 11%N])
                      (Some 0xffffc90000000000))) = Done tt s1 /\
     evdi_gem_vunmap 7%N s1 = Done tt s2 /\
     emitted s1 s2 = [Call_drm_gem_put_pages 7%N None] /\
     s2 <> s1) /\
  (exists s1 s2,
     evdi_gem_vunmap 7%N
       (one_object (imported_object (Some [20%N; 21%N])
                      (Some 0xffffc90000000000))) = Done tt s1 /\
     evdi_gem_vunmap 7%N s1 = Done tt s2 /\
     emitted s1 s2 = [Call_dma_buf_vunmap the_dmabuf None] /\
     s2 <> s1).
Proof.
  split.
  - exists (final (evdi_gem_vunmap 7%N
                     (one_object (local_object (Some [10%N; 11%N])
                                    (Some 0xffffc90000000000))))).
    eexists. split; [reflexivity|]. split; [reflexivity|].
    split; [reflexivity|].
    intros E. apply (f_equal (fun s => length (klog s))) in E.
    vm_compute in E. discriminate E.
  - exists (final (evdi_gem_vunmap 7%N
                     (one_object (imported_object (Some [20%N; 21%N])
                                    (Some 0xffffc90000000000))))).
    eexists. split; [reflexivity|]. split; [reflexivity|].
    split; [reflexivity|].
    intros E. apply (f_equal (fun s => length (klog s))) in E.
    vm_compute in E. discriminate E.
Qed.

(** ** Claim C4: the order of the final teardown *)

Ltac solve_emitted :=
  apply emitted_app; simpl; rewrite <- ?app_assoc; reflexivity.

Ltac solve_all_before :=
  let i := fresh "i" in let j := fresh "j" in
  intros i j ? ? ? ? ? ?;
  destruct i as [|[|[|[|[|[|i]]]]]]; destruct j as [|[|[|[|[|[|j]]]]]];
  simpl in *; simplify_eq; simpl in *; try discriminate; lia.

Section Teardown.

(** C4.  [evdi_gem_free_object] on a live object returns, and the calls it
    makes are, in this order: the unmapping of a live kernel mapping (with,
    for a local object, the release of its pages); for an import, the release
    of the import relationship; the release of a page array that is still
    there; the release of the mmap offset.  So every unmapping call comes
    before every import-release call, every import-release call before the
    offset release, and no call frees the object's own memory: the object is
    still in the heap afterwards, without pages, mapping or offset. *)
Theorem evdi_gem_free_object_order obj o s :
  heap s !! obj = Some o ->
  exists s' o',
    evdi_gem_free_object obj s = Done tt s' /\
    emitted s s' =
      teardown_unmap obj o ++ teardown_import obj o ++
      teardown_pages obj o ++ teardown_offset obj /\
    all_before is_unmap is_import_release (emitted s s') /\
    all_before is_import_release is_offset_release (emitted s s') /\
    Forall (fun e => is_object_free e = false) (emitted s s') /\
    heap s' !! obj = Some o' /\
    pages o' = None /\ vmapping o' = None /\ vma_node (base o') = None.
Proof.
  intros Ho.
  assert (Hlog : exists s' o',
    evdi_gem_free_object obj s = Done tt s' /\
    emitted s s' =
      teardown_unmap obj o ++ teardown_import obj o ++
      teardown_pages obj o ++ teardown_offset obj /\
    heap s' !! obj = Some o' /\
    pages o' = None /\ vmapping o' = None /\ vma_node (base o') = None).
  { unfold teardown_unmap, teardown_import, teardown_pages, teardown_offset.
    destruct (vmapping o) as [v|] eqn:Hv,
             (import_attach (base o)) as [att|] eqn:Hi,
             (pages o) as [arr|] eqn:Hp; krun;
    (rewrite ?Hv, ?Hp, ?Hi; eexists _, _; split; [reflexivity|]; split; [solve_emitted|];
     split; [apply lookup_insert_eq|]; repeat split; try reflexivity; try assumption). }
  destruct Hlog as (s' & o' & Hrun & Hem & Ho' & Hrest).
  exists s', o'. split; [exact Hrun|]. split; [exact Hem|].
  rewrite Hem.
  unfold teardown_unmap, teardown_import, teardown_pages, teardown_offset.
  split; [|split; [|split; [|split; [exact Ho'|exact Hrest]]]].
  - destruct (vmapping o), (import_attach (base o)), (pages o); solve_all_before.
  - destruct (vmapping o), (import_attach (base o)), (pages o); solve_all_before.
  - destruct (vmapping o), (import_attach (base o)), (pages o);
      repeat constructor.
Qed.
End Teardown.

Lemma evdi_gem_free_object_order_witness :
  exists s',
    evdi_gem_free_object 7%N
      (one_object (imported_object (Some [20%N; 21%N]) (Some 0xffffc90000000000)))
      = Done tt s' /\
    klog s' =
      [Call_dma_buf_vunmap the_dmabuf (Some 0xffffc90000000000);
       Call_drm_prime_gem_destroy 7%N (Some the_sg);
       Call_put_device 1%N;
       Call_drm_free_large (Some [20%N; 21%N]);
       Call_drm_gem_free_mmap_offset 7%N].
Proof.
  destruct (evdi_gem_free_object_order 7%N
              (imported_object (Some [20%N; 21%N]) (Some 0xffffc90000000000))
              (one_object (imported_object (Some [20%N; 21%N])
                             (Some 0xffffc90000000000)))
              eq_refl)
    as (s' & o' & R & He & _).
  exists s'. split; [exact R|]. exact He.
Defined.

(** ** Claim C7: the lookup reference of [evdi_gem_mmap] *)

Ltac mmap_finish :=
  eexists _, _, _, _; split; [reflexivity|]; know_emitted;
  split; [simpl; rewrite bool_decide_eq_true_2 by reflexivity; reflexivity|];
  split; [first [eexists [_; _; _]; reflexivity
                | eexists [_; _; _; _]; reflexivity]|];
  split; [apply lookup_insert_eq|];
  split; [simpl; lia|];
  split; [intros ? ?; in_log; split; congruence|];
  split; [intros ? ? ?; in_log; split; congruence|];
  let Hz := fresh "Hz" in
  intros Hz; simpl;
  first [ discriminate Hz
        | congruence
        | split; [try match goal with Hx : pages _ = _ |- _ => rewrite Hx end;
                  eauto | reflexivity] ].

Ltac mmap_path :=
  intros; simplify_eq; know_emitted;
  repeat match goal with
         | |- _ /\ _ => split
         | |- _ -> _ => intros ?
         end;
  simplify_eq; simpl;
  try match goal with Hx : pages _ = _ |- _ => rewrite Hx end;
  try reflexivity; try congruence.

Ltac mmap_paths_finish :=
  eexists _, _, _, _; split; [reflexivity|];
  split; [apply lookup_insert_eq|];
  split; [mmap_path|]; split; [mmap_path|mmap_path].

Section Mmap.
Context `{Platform} (K : kernel).

Lemma evdi_gem_mmap_no_object d h s :
  handles s !! h = None ->
  exists s',
    evdi_gem_mmap K d h s = Done (- ENOENT, None) s' /\
    emitted s s' = [Call_mutex_lock d; Call_drm_gem_object_lookup h None;
                    Call_mutex_unlock d] /\
    heap s' = heap s.
Proof.
  intros Hh. krun. eexists. split; [reflexivity|].
  split; [know_emitted; reflexivity | reflexivity].
Qed.

Lemma evdi_gem_mmap_object d h s obj o :
  handles s !! h = Some obj ->
  heap s !! obj = Some o ->
  exists r off s' o',
    evdi_gem_mmap K d h s = Done (r, off) s' /\
    length (List.filter (is_unreference obj) (emitted s s')) = 1%nat /\
    (exists l, emitted s s' =
       l ++ [Call_drm_gem_object_unreference obj; Call_mutex_unlock d]) /\
    heap s' !! obj = Some o' /\
    refcount (base o') = refcount (base o) /\
    (forall e, In (Call_drm_gem_get_pages obj (ErrPtr e)) (emitted s s') ->
       r = Z.neg e /\ off = None) /\
    (forall r', r' <> 0 ->
       In (Call_drm_gem_create_mmap_offset obj r') (emitted s s') ->
       r = r' /\ off = None) /\
    (r = 0 ->
     is_Some (pages o') /\ off = Some (drm_vma_node_offset_addr (base o'))).
Proof.
  intros Hh Ho. krun. kgo.
  destruct (pages o) as [arr|] eqn:Hp; kgo.
  - match goal with |- context [drm_gem_create_mmap_offset_ret K ?t] =>
      destruct (drm_gem_create_mmap_offset_ret K t) as [r' start] eqn:Hk end.
    kgo. destruct (decide (r' = 0)) as [->|Hr]; kgo;
      destruct (vma_node (base o)) eqn:Hn; mmap_finish.
  - match goal with |- context [drm_gem_get_pages_ret K ?t] =>
      destruct (drm_gem_get_pages_ret K t) as [arr|e] eqn:Hg end; kgo.
    + match goal with |- context [drm_gem_create_mmap_offset_ret K ?t] =>
        destruct (drm_gem_create_mmap_offset_ret K t) as [r' start] eqn:Hk end.
      kgo. destruct (decide (r' = 0)) as [->|Hr]; kgo;
        destruct (vma_node (base o)) eqn:Hn; mmap_finish.
    + mmap_finish.
Qed.
Lemma evdi_gem_mmap_paths d h s obj o :
  handles s !! h = Some obj ->
  heap s !! obj = Some o ->
  exists r off s' o',
    evdi_gem_mmap K d h s = Done (r, off) s' /\
    heap s' !! obj = Some o' /\
    (forall e,
       pages o = None ->
       drm_gem_get_pages_ret K (length (klog s) + 2)%nat = ErrPtr e ->
       r = Z.neg e /\ off = None /\
       pages o' = None /\ vma_node (base o') = vma_node (base o) /\
       emitted s s' =
         [Call_mutex_lock d; Call_drm_gem_object_lookup h (Some obj);
          Call_drm_gem_get_pages obj (ErrPtr e);
          Call_drm_gem_object_unreference obj; Call_mutex_unlock d]) /\
    (forall arr r' start,
       pages o = Some arr ->
       drm_gem_create_mmap_offset_ret K (length (klog s) + 2)%nat
       = (r', start) ->
       pages o' = Some arr /\
       emitted s s' =
         [Call_mutex_lock d; Call_drm_gem_object_lookup h (Some obj);
          Call_drm_gem_create_mmap_offset obj r';
          Call_drm_gem_object_unreference obj; Call_mutex_unlock d] /\
       (r' <> 0 ->
        r = r' /\ off = None /\ vma_node (base o') = vma_node (base o)) /\
       (r' = 0 ->
        r = 0 /\
        vma_node (base o') = Some (default start (vma_node (base o))) /\
        off = Some (drm_vma_node_offset_addr (base o')))) /\
    (forall arr r' start,
       pages o = None ->
       drm_gem_get_pages_ret K (length (klog s) + 2)%nat = Ptr arr ->
       drm_gem_create_mmap_offset_ret K (length (klog s) + 3)%nat
       = (r', start) ->
       pages o' = Some arr /\
       emitted s s' =
         [Call_mutex_lock d; Call_drm_gem_object_lookup h (Some obj);
          Call_drm_gem_get_pages obj (Ptr arr);
          Call_drm_gem_create_mmap_offset obj r';
          Call_drm_gem_object_unreference obj; Call_mutex_unlock d] /\
       (r' <> 0 ->
        r = r' /\ off = None /\ vma_node (base o') = vma_node (base o)) /\
       (r' = 0 ->
        r = 0 /\
        vma_node (base o') = Some (default start (vma_node (base o))) /\
        off = Some (drm_vma_node_offset_addr (base o')))).
Proof.
  intros Hh Ho. kunfold. kall.
  destruct (pages o) as [arr|] eqn:Hp; kall.
  - match goal with |- context [drm_gem_create_mmap_offset_ret K ?t] =>
      destruct (drm_gem_create_mmap_offset_ret K t) as [r' start] eqn:Hk end.
    kall. destruct (decide (r' = 0)) as [->|Hr]; kall;
      destruct (vma_node (base o)) eqn:Hn; mmap_paths_finish.
  - match goal with |- context [drm_gem_get_pages_ret K ?t] =>
      destruct (drm_gem_get_pages_ret K t) as [arr|e] eqn:Hg end; kall.
    + match goal with |- context [drm_gem_create_mmap_offset_ret K ?t] =>
        destruct (drm_gem_create_mmap_offset_ret K t) as [r' start] eqn:Hk end.
      kall. destruct (decide (r' = 0)) as [->|Hr]; kall;
        destruct (vma_node (base o)) eqn:Hn; mmap_paths_finish.
    + mmap_paths_finish.
Qed.

(** C7.  With no object under the handle, [evdi_gem_mmap] returns [-ENOENT];
    it has locked, looked up and unlocked, and dropped no reference.  With a
    live object under the handle it returns, having dropped the reference the
    lookup took exactly once, as its last call before the unlock, so the
    object's reference count is what it was.  A failure of the page
    allocation or of the offset allocation is returned as it came, with no
    offset written; a zero result means the pages are there and the offset
    written is the object's.  Path by path, by what the kernel answers: an
    object without pages whose page allocation fails gives that error after
    lock, lookup, the failed allocation, unreference and unlock, with no
    offset asked for; an object that has pages, or gets them, goes on to the
    offset allocation, whose failure is the result, and whose success gives
    zero and the offset of the node the object now has. *)
Theorem evdi_gem_mmap_reference d h s :
  (handles s !! h = None ->
   exists s',
     evdi_gem_mmap K d h s = Done (- ENOENT, None) s' /\
     emitted s s' = [Call_mutex_lock d; Call_drm_gem_object_lookup h None;
                     Call_mutex_unlock d] /\
     heap s' = heap s) /\
  (forall obj o,
     handles s !! h = Some obj ->
     heap s !! obj = Some o ->
     exists r off s' o',
       evdi_gem_mmap K d h s = Done (r, off) s' /\
       length (List.filter (is_unreference obj) (emitted s s')) = 1%nat /\
       (exists l, emitted s s' =
          l ++ [Call_drm_gem_object_unreference obj; Call_mutex_unlock d]) /\
       heap s' !! obj = Some o' /\
       refcount (base o') = refcount (base o) /\
       (forall e, In (Call_drm_gem_get_pages obj (ErrPtr e)) (emitted s s') ->
          r = Z.neg e /\ off = None) /\
       (forall r', r' <> 0 ->
          In (Call_drm_gem_create_mmap_offset obj r') (emitted s s') ->
          r = r' /\ off = None) /\
       (r = 0 ->
        is_Some (pages o') /\
        off = Some (drm_vma_node_offset_addr (base o'))) /\
       (forall e,
          pages o = None ->
          drm_gem_get_pages_ret K (length (klog s) + 2)%nat = ErrPtr e ->
          r = Z.neg e /\ off = None /\
          pages o' = None /\ vma_node (base o') = vma_node (base o) /\
          emitted s s' =
            [Call_mutex_lock d; Call_drm_gem_object_lookup h (Some obj);
             Call_drm_gem_get_pages obj (ErrPtr e);
             Call_drm_gem_object_unreference obj; Call_mutex_unlock d]) /\
       (forall arr r' start,
          pages o = Some arr ->
          drm_gem_create_mmap_offset_ret K (length (klog s) + 2)%nat
          = (r', start) ->
          pages o' = Some arr /\
          emitted s s' =
            [Call_mutex_lock d; Call_drm_gem_object_lookup h (Some obj);
             Call_drm_gem_create_mmap_offset obj r';
             Call_drm_gem_object_unreference obj; Call_mutex_unlock d] /\
          (r' <> 0 ->
           r = r' /\ off = None /\ vma_node (base o') = vma_node (base o)) /\
          (r' = 0 ->
           r = 0 /\
           vma_node (base o') = Some (default start (vma_node (base o))) /\
           off = Some (drm_vma_node_offset_addr (base o')))) /\
       (forall arr r' start,
          pages o = None ->
          drm_gem_get_pages_ret K (length (klog s) + 2)%nat = Ptr arr ->
          drm_gem_create_mmap_offset_ret K (length (klog s) + 3)%nat
          = (r', start) ->
          pages o' = Some arr /\
          emitted s s' =
            [Call_mutex_lock d; Call_drm_gem_object_lookup h (Some obj);
             Call_drm_gem_get_pages obj (Ptr arr);
             Call_drm_gem_create_mmap_offset obj r';
             Call_drm_gem_object_unreference obj; Call_mutex_unlock d] /\
          (r' <> 0 ->
           r = r' /\ off = None /\ vma_node (base o') = vma_node (base o)) /\
          (r' = 0 ->
           r = 0 /\
           vma_node (base o') = Some (default start (vma_node (base o))) /\
           off = Some (drm_vma_node_offset_addr (base o'))))).
Proof.
  split.
  - apply evdi_gem_mmap_no_object.
  - intros obj o Hh Ho.
    destruct (evdi_gem_mmap_object d h s obj o Hh Ho)
      as (r & off & s' & o' & R & Hu & Hl & Ho' & Hrc & Hg & Hk & Hz).
    destruct (evdi_gem_mmap_paths d h s obj o Hh Ho)
      as (r2 & off2 & s2 & o2 & R2 & Ho2 & P1 & P2 & P3).
    rewrite R in R2. injection R2 as <- <- <-.
    rewrite Ho' in Ho2. injection Ho2 as <-.
    exists r, off, s', o'. repeat (split; [assumption|]). assumption.
Qed.

End Mmap.

Lemma evdi_gem_mmap_reference_witness :
  (exists s',
     evdi_gem_mmap (H := x86_64) willing 1%N 2
       (one_object (local_object None None)) = Done (- ENOENT, None) s') /\
  (exists s' o',
     evdi_gem_mmap (H := x86_64) (with_get_pages_ret (ErrPtr 12) willing)
       1%N 1 (one_object (local_object None None))
     = Done (- ENOMEM, None) s' /\
     emitted (one_object (local_object None None)) s' =
       [Call_mutex_lock 1%N; Call_drm_gem_object_lookup 1 (Some 7%N);
        Call_drm_gem_get_pages 7%N (ErrPtr 12);
        Call_drm_gem_object_unreference 7%N; Call_mutex_unlock 1%N] /\
     heap s' !! 7%N = Some o' /\
     refcount (base o') = 1 /\ pages o' = None) /\
  (exists s' o',
     evdi_gem_mmap (H := x86_64) (with_mmap_offset_ret (-28, 0) willing)
       1%N 1 (one_object (local_object None None))
     = Done (-28, None) s' /\
     emitted (one_object (local_object None None)) s' =
       [Call_mutex_lock 1%N; Call_drm_gem_object_lookup 1 (Some 7%N);
        Call_drm_gem_get_pages 7%N (Ptr [10%N; 11%N]);
        Call_drm_gem_create_mmap_offset 7%N (-28);
        Call_drm_gem_object_unreference 7%N; Call_mutex_unlock 1%N] /\
     heap s' !! 7%N = Some o' /\
     refcount (base o') = 1 /\ pages o' = Some [10%N; 11%N]) /\
  (exists s' o',
     evdi_gem_mmap (H := x86_64) willing 1%N 1
       (one_object (local_object None None))
     = Done (0, Some (u64 (0x100000 * PAGE_SIZE (H := x86_64)))) s' /\
     heap s' !! 7%N = Some o' /\
     refcount (base o') = 1 /\ pages o' = Some [10%N; 11%N]).
Proof.
  destruct (evdi_gem_mmap_reference (H := x86_64) willing 1%N 2
              (one_object (local_object None None))) as [Hnone _].
  destruct (evdi_gem_mmap_reference (H := x86_64)
              (with_get_pages_ret (ErrPtr 12) willing) 1%N 1
              (one_object (local_object None None))) as [_ Hpages].
  destruct (evdi_gem_mmap_reference (H := x86_64)
              (with_mmap_offset_ret (-28, 0) willing) 1%N 1
              (one_object (local_object None None))) as [_ Hoffset].
  destruct (evdi_gem_mmap_reference (H := x86_64) willing 1%N 1
              (one_object (local_object None None))) as [_ Hsome].
  split; [|split; [|split]].
  - destruct (Hnone eq_refl) as (s' & R & _). exists s'. exact R.
  - destruct (Hpages 7%N (local_object None None) eq_refl eq_refl)
      as (r & off & s' & o' & R & _ & _ & Ho' & Hr & _ & _ & _ & P1 & _).
    destruct (P1 12%positive eq_refl eq_refl) as (-> & -> & Hp & _ & He).
    exists s', o'. repeat split; assumption.
  - destruct (Hoffset 7%N (local_object None None) eq_refl eq_refl)
      as (r & off & s' & o' & R & _ & _ & Ho' & Hr & _ & _ & _ & _ & _ & P3).
    destruct (P3 [10%N; 11%N] (-28) 0 eq_refl eq_refl eq_refl)
      as (Hp & He & Hf & _).
    destruct Hf as (-> & -> & _); [discriminate|].
    exists s', o'. repeat split; assumption.
  - destruct (Hsome 7%N (local_object None None) eq_refl eq_refl)
      as (r & off & s' & o' & R & _ & _ & Ho' & Hr & _ & _ & _ & _ & _ & P3).
    destruct (P3 [10%N; 11%N] 0 0x100000 eq_refl eq_refl eq_refl)
      as (Hp & _ & _ & Hok).
    destruct (Hok eq_refl) as (-> & Hn & ->).
    exists s', o'. split; [|repeat split; assumption].
    rewrite R. unfold drm_vma_node_offset_addr. rewrite Hn. reflexivity.
Defined.


(** ** Claims C3 and C10: the unwinding of a failed import *)

Section PrimeImport.
Context `{Platform} (K : kernel).

(** C3 (as the code has it).  When the attachment succeeds and the mapping
    of the scatter-gather description fails, [evdi_gem_prime_import] returns
    the mapping primitive's error.  What it gives back, in this order: the
    attachment (detach), the foreign-buffer reference, the device reference.
    No page or mapping release is called, and the heap is untouched. *)
Theorem evdi_gem_prime_import_map_fails d b att e s :
  dma_buf_attach_ret K (length (klog s) + 1)%nat = Ptr att ->
  dma_buf_map_attachment_ret K (length (klog s) + 3)%nat = ErrPtr e ->
  exists s',
    evdi_gem_prime_import K d b s = Done (inl (Z.neg e)) s' /\
    emitted s s' =
      [Call_get_device d; Call_dma_buf_attach b d (Ptr att);
       Call_get_dma_buf b; Call_dma_buf_map_attachment att (ErrPtr e);
       Call_dma_buf_detach b att; Call_dma_buf_put b; Call_put_device d] /\
    List.filter is_import_undo (emitted s s') =
      [Call_dma_buf_detach b att; Call_dma_buf_put b; Call_put_device d] /\
    Forall (fun ev => is_page_release ev = false /\ is_unmap ev = false)
      (emitted s s') /\
    heap s' = heap s /\
    handles s' = handles s.
Proof.
  intros Ha Hm. krun. ktime. kgo. ktime. kgo.
  eexists. split; [reflexivity|]. know_emitted.
  split; [reflexivity|]. split; [reflexivity|].
  split; [repeat constructor|]. split; reflexivity.
Qed.

(** C10.  When everything up to the allocation of the local object succeeds
    and the page-reference array cannot be allocated, the import returns
    [-ENOMEM] after giving back the scatter-gather mapping, the attachment,
    the foreign-buffer reference and the device reference.  No call frees the
    local object: it stays in the heap, at the address [kzalloc] handed out,
    which held nothing before. *)
Theorem evdi_gem_prime_import_leaks_object d b att t s :
  dma_buf_attach_ret K (length (klog s) + 1)%nat = Ptr att ->
  dma_buf_map_attachment_ret K (length (klog s) + 3)%nat = Ptr t ->
  kzalloc_ok K (length (klog s) + 4)%nat = true ->
  drm_gem_object_init_ret K (length (klog s) + 5)%nat = 0 ->
  drm_malloc_ab_ok K (length (klog s) + 6)%nat = false ->
  exists s' o',
    evdi_gem_prime_import K d b s = Done (inl (- ENOMEM)) s' /\
    emitted s s' =
      (let n := to_int (ulong (dmabuf_size b) / PAGE_SIZE) in
       let obj := fresh (dom (heap s)) in
       [Call_get_device d; Call_dma_buf_attach b d (Ptr att);
        Call_get_dma_buf b; Call_dma_buf_map_attachment att (Ptr t);
        Call_kzalloc (Some obj);
        Call_drm_gem_object_init d obj (ulong (n * PAGE_SIZE)) 0;
        Call_drm_malloc_ab n false; Call_DRM_ERROR n;
        Call_dma_buf_unmap_attachment att t; Call_dma_buf_detach b att;
        Call_dma_buf_put b; Call_put_device d]) /\
    List.filter is_import_undo (emitted s s') =
      [Call_dma_buf_unmap_attachment att t; Call_dma_buf_detach b att;
       Call_dma_buf_put b; Call_put_device d] /\
    In (Call_kzalloc (Some (fresh (dom (heap s))))) (emitted s s') /\
    Forall (fun ev => is_object_free ev = false) (emitted s s') /\
    heap s !! fresh (dom (heap s)) = None /\
    heap s' = <[fresh (dom (heap s)) := o']> (heap s) /\
    sg o' = Some t /\ pages o' = None /\ refcount (base o') = 1.
Proof.
  intros Ha Hm Hz Hi Hb. kunfold. kall.
  eexists _, _. split; [reflexivity|]. know_emitted.
  split; [reflexivity|].
  split; [reflexivity|].
  split; [simpl; tauto|].
  split; [repeat constructor|].
  split; [apply not_elem_of_dom, is_fresh|].
  split; [simpl; rewrite !insert_insert_eq; reflexivity|].
  repeat split.
Qed.
End PrimeImport.

Lemma evdi_gem_prime_import_map_fails_witness :
  exists s',
    evdi_gem_prime_import (H := x86_64)
      (with_map_attachment_ret (ErrPtr 12) willing) 1%N the_dmabuf boot
      = Done (inl (- ENOMEM)) s' /\
    heap s' = heap boot.
Proof.
  destruct (evdi_gem_prime_import_map_fails (H := x86_64)
              (with_map_attachment_ret (ErrPtr 12) willing) 1%N the_dmabuf
              the_attachment 12%positive boot eq_refl eq_refl)
    as (s' & R & _ & _ & _ & Hh & _).
  exists s'. split; assumption.
Defined.

(** C3 (as stated) fails on the order: the code detaches before it drops the
    foreign-buffer reference, which is not the reverse of the order in which
    the two were acquired. *)
Lemma evdi_gem_prime_import_unwind_order :
  let r := evdi_gem_prime_import (H := x86_64)
             (with_map_attachment_ret (ErrPtr 12) willing) 1%N the_dmabuf boot in
  value r = Some (inl (- ENOMEM)) /\
  klog (final r) =
    [Call_get_device 1%N;
     Call_dma_buf_attach the_dmabuf 1%N (Ptr the_attachment);
     Call_get_dma_buf the_dmabuf;
     Call_dma_buf_map_attachment the_attachment (ErrPtr 12);
     Call_dma_buf_detach the_dmabuf the_attachment;
     Call_dma_buf_put the_dmabuf;
     Call_put_device 1%N] /\
  List.filter is_import_undo (klog (final r)) <>
    spec_symmetric_unwind 1%N the_dmabuf the_attachment.
Proof.
  cbv zeta. split; [reflexivity|]. split; [reflexivity|].
  intros E. discriminate E.
Qed.

Lemma evdi_gem_prime_import_leaks_object_witness :
  exists s' o',
    evdi_gem_prime_import (H := x86_64) (with_malloc_ab false willing) 1%N
      the_dmabuf boot = Done (inl (- ENOMEM)) s' /\
    heap s' = <[fresh (dom (heap boot)) := o']> (heap boot) /\
    pages o' = None.
Proof.
  destruct (evdi_gem_prime_import_leaks_object (H := x86_64)
              (with_malloc_ab false willing) 1%N the_dmabuf the_attachment
              the_sg boot eq_refl eq_refl eq_refl eq_refl eq_refl)
    as (s' & o' & R & _ & _ & _ & _ & _ & Hh & _ & Hp & _).
  exists s', o'. repeat split; assumption.
Defined.

(** ** Claims C5 and C9: the size of a dumb buffer *)

Lemma u32_small z : 0 <= z < 2 ^ 32 -> u32 z = z.
Proof. intros Hz. unfold u32, wrap. apply Z.mod_small. exact Hz. Qed.

Lemma u64_u32 z : u64 (u32 z) = u32 z.
Proof.
  unfold u64, u32, wrap. apply Z.mod_small.
  pose proof (Z.mod_pos_bound z (2 ^ Z.of_nat 32) ltac:(reflexivity)).
  change (2 ^ Z.of_nat 32) with 4294967296 in *.
  change (2 ^ Z.of_nat 64) with 18446744073709551616. lia.
Qed.

Lemma DIV_ROUND_UP_8_mod b :
  DIV_ROUND_UP b 8 = ((b + 7) mod 2 ^ 32) / 8.
Proof.
  unfold DIV_ROUND_UP, u32, wrap. change (2 ^ Z.of_nat 32) with (2 ^ 32).
  rewrite Zminus_mod_idemp_l. f_equal. f_equal. lia.
Qed.

Lemma DIV_ROUND_UP_8_ceil b :
  0 <= b <= 2 ^ 32 - 8 -> DIV_ROUND_UP b 8 = ceil_div b 8.
Proof.
  intros Hb. rewrite DIV_ROUND_UP_8_mod. unfold ceil_div.
  rewrite Z.mod_small by lia. f_equal. lia.
Qed.

Lemma PAGE_SIZE_pos `{Platform} : 0 < PAGE_SIZE.
Proof. unfold PAGE_SIZE. apply Z.pow_pos_nonneg; lia. Qed.

Lemma roundup_spec sz p :
  0 <= sz -> 0 < p -> sz + p <= 2 ^ 64 ->
  roundup sz p = (sz + (p - 1)) / p * p /\
  roundup sz p mod p = 0 /\
  sz <= roundup sz p < sz + p.
Proof.
  intros Hsz Hp Hb.
  assert (Hq : (sz + (p - 1)) / p * p <= sz + (p - 1)).
  { rewrite Z.mul_comm. apply Z.mul_div_le. exact Hp. }
  assert (Hr : sz + (p - 1) < (sz + (p - 1)) / p * p + p).
  { pose proof (Z.mod_pos_bound (sz + (p - 1)) p Hp).
    pose proof (Z.div_mod (sz + (p - 1)) p ltac:(lia)). lia. }
  assert (Hn : 0 <= (sz + (p - 1)) / p) by (apply Z.div_pos; lia).
  assert (E : roundup sz p = (sz + (p - 1)) / p * p).
  { unfold roundup, u64, wrap. change (2 ^ Z.of_nat 64) with (2 ^ 64).
    rewrite (Z.mod_small (sz + (p - 1))) by lia.
    apply Z.mod_small. split; [apply Z.mul_nonneg_nonneg; lia | lia]. }
  rewrite E. split; [reflexivity|]. split.
  - apply Z.mod_mul. lia.
  - lia.
Qed.

Section Create.
Context `{Platform} (K : kernel).

Lemma evdi_gem_create_run d sz s :
  exists r h s',
    evdi_gem_create K d sz s = Done (r, h) s' /\
    (forall d' p sz' r',
       In (Call_drm_gem_object_init d' p sz' r') (emitted s s') ->
       d' = d /\ sz' = ulong (roundup sz PAGE_SIZE)) /\
    (r = 0 ->
     exists hd obj o',
       h = Some hd /\
       handles s' !! hd = Some obj /\
       heap s' !! obj = Some o' /\
       heap s !! obj = None /\
       dev (base o') = d /\
       obj_size (base o') = ulong (roundup sz PAGE_SIZE) /\
       refcount (base o') = 1 /\
       pages o' = None /\ vmapping o' = None).
Proof.
  kunfold. kall.
  destruct (kzalloc_ok K (length (klog s))) eqn:Hz; kall.
  - destruct (decide (drm_gem_object_init_ret K (length (klog s) + 1) = 0))
      as [Hi|Hi]; kall.
    + destruct (drm_gem_handle_create_ret K (length (klog s) + 2))
        as [r hd] eqn:Hh. kall.
      destruct (decide (r = 0)) as [->|Hr]; kall.
      * eexists _, _, _. split; [reflexivity|]. know_emitted.
        split. { intros d' p sz' r' Hin. in_log. simplify_eq. auto. }
        intros _. eexists _, _, _. split; [reflexivity|].
        split; [apply lookup_insert_eq|].
        split; [apply lookup_insert_eq|].
        split; [apply not_elem_of_dom, is_fresh|].
        repeat split.
      * eexists _, _, _. split; [reflexivity|]. know_emitted.
        split. { intros d' p sz' r' Hin. in_log. simplify_eq. auto. }
        intros ->. congruence.
    + eexists _, _, _. split; [reflexivity|]. know_emitted.
      split. { intros d' p sz' r' Hin. in_log. simplify_eq. auto. }
      unfold ENOMEM. intros [=].
  - eexists _, _, _. split; [reflexivity|]. know_emitted.
    split. { intros d' p sz' r' Hin. in_log. }
    unfold ENOMEM. intros [=].
Qed.

Lemma evdi_dumb_create_run d args s :
  exists r h s',
    evdi_gem_create K d
      (u64 (u32 (u32 (width args * DIV_ROUND_UP (bpp args) 8) * height args))) s
      = Done (r, h) s' /\
    evdi_dumb_create K d args s =
      Done (r, {| height := height args; width := width args;
                  bpp := bpp args; flags := flags args;
                  handle := match h with
                            | Some h' => h'
                            | None => handle args
                            end;
                  pitch := u32 (width args * DIV_ROUND_UP (bpp args) 8);
                  size := u64 (u32 (u32 (width args * DIV_ROUND_UP (bpp args) 8)
                                    * height args)) |}) s'.
Proof.
  destruct (evdi_gem_create_run d
              (u64 (u32 (u32 (width args * DIV_ROUND_UP (bpp args) 8)
                         * height args))) s)
    as (r & h & s' & R & _).
  exists r, h, s'. split; [exact R|].
  unfold evdi_dumb_create, bind. rewrite R. reflexivity.
Qed.


(** C9.  [evdi_dumb_create] always returns, and what it stores is computed
    modulo [2^32]: the pitch is [width * ceil(bpp/8)] reduced modulo [2^32]
    (the rounding itself on the 32-bit sum [bpp + 7]), the size is
    [pitch * height] reduced modulo [2^32], so below [2^32] although the
    field has 64 bits, and congruent to the product over the integers.  For
    some request with 32-bit fields the stored size is strictly smaller than
    that product. *)
Theorem evdi_dumb_create_wraps d s :
  (forall args,
     exists r args' s',
       evdi_dumb_create K d args s = Done (r, args') s' /\
       pitch args' =
         (width args * (((bpp args + 7) mod 2 ^ 32) / 8)) mod 2 ^ 32 /\
       size args' = (pitch args' * height args) mod 2 ^ 32 /\
       0 <= size args' < 2 ^ 32 /\
       (0 <= bpp args <= 2 ^ 32 - 8 ->
        size args' =
          spec_size (width args) (bpp args) (height args) mod 2 ^ 32)) /\
  (exists args r args' s',
     0 <= width args < 2 ^ 32 /\
     0 <= height args < 2 ^ 32 /\
     0 <= bpp args < 2 ^ 32 /\
     evdi_dumb_create K d args s = Done (r, args') s' /\
     size args' < spec_size (width args) (bpp args) (height args)).
Proof.
  assert (Hall : forall args,
     exists r args' s',
       evdi_dumb_create K d args s = Done (r, args') s' /\
       pitch args' =
         (width args * (((bpp args + 7) mod 2 ^ 32) / 8)) mod 2 ^ 32 /\
       size args' = (pitch args' * height args) mod 2 ^ 32 /\
       0 <= size args' < 2 ^ 32 /\
       (0 <= bpp args <= 2 ^ 32 - 8 ->
        size args' =
          spec_size (width args) (bpp args) (height args) mod 2 ^ 32)).
  { intros args.
    destruct (evdi_dumb_create_run d args s) as (r & h & s' & _ & R).
    rewrite R. eexists _, _, _. split; [reflexivity|]. cbn [pitch size].
    rewrite u64_u32, DIV_ROUND_UP_8_mod.
    split; [reflexivity|]. split; [reflexivity|]. split.
    - unfold u32 at 1, wrap. apply Z.mod_pos_bound. reflexivity.
    - intros Hb. unfold spec_size, spec_pitch, ceil_div, u32, wrap.
      change (2 ^ Z.of_nat 32) with (2 ^ 32).
      rewrite (Z.mod_small (bpp args + 7)) by lia.
      rewrite Zmult_mod_idemp_l.
      replace (bpp args + 8 - 1) with (bpp args + 7) by lia. reflexivity. }
  split; [exact Hall|].
  destruct (Hall {| height := 16384; width := 65536; bpp := 32; flags := 0;
                    handle := 0; pitch := 0; size := 0 |})
    as (r & args' & s' & R & Hp & Hs & _ & _).
  eexists _, r, args', s'. split; [|split; [|split; [|split; [exact R|]]]].
  - simpl. lia.
  - simpl. lia.
  - simpl. lia.
  - rewrite Hs, Hp. vm_compute. reflexivity.
Qed.

End Create.



(** ** Claim C8: the page index of a fault is not checked *)

Section FaultIndex.
Context `{Platform} (K : kernel).

Lemma fault_page_offset_near vma vmf :
  0 <= vm_start vma <= virtual_address vmf ->
  virtual_address vmf < 2 ^ Z.of_nat BITS_PER_LONG ->
  (virtual_address vmf - vm_start vma) / PAGE_SIZE < 2 ^ 32 ->
  fault_page_offset vma vmf
  = (virtual_address vmf - vm_start vma) / PAGE_SIZE.
Proof.
  intros Hs Ha Hn. unfold fault_page_offset, ulong, u32, wrap.
  rewrite (Z.mod_small (virtual_address vmf)) by lia.
  rewrite (Z.mod_small (virtual_address vmf - vm_start vma)) by lia.
  rewrite Z.shiftr_div_pow2 by lia. fold PAGE_SIZE.
  apply Z.mod_small. split; [|exact Hn].
  apply Z.div_pos; [lia | apply PAGE_SIZE_pos].
Qed.

Lemma evdi_gem_fault_in_bounds vma vmf s o arr pg :
  heap s !! vm_private_data vma = Some o ->
  pages o = Some arr ->
  arr !! Z.to_nat (fault_page_offset vma vmf) = Some pg ->
  exists v s', evdi_gem_fault K vma vmf s = Done v s'.
Proof.
  intros Ho Hp Hpg. krun.
  repeat case_decide; eauto.
Qed.

Lemma evdi_gem_fault_out_of_bounds vma vmf s o arr :
  heap s !! vm_private_data vma = Some o ->
  pages o = Some arr ->
  arr !! Z.to_nat (fault_page_offset vma vmf) = None ->
  evdi_gem_fault K vma vmf s = Oops s.
Proof. intros Ho Hp Hpg. krun. reflexivity. Qed.

(** C8.  On an object that has a page array, [evdi_gem_fault] uses the page
    index as computed, whatever the size of the array: it returns exactly
    when the index is inside the array and reads outside it (a fault of the
    kernel itself) exactly when it is not.  For an address at or above the
    region start and less than [2^32] pages away, on an object whose array
    has [size / PAGE_SIZE] entries, the handler returns exactly when the
    address lies within [size / PAGE_SIZE] pages of the region start. *)
Theorem evdi_gem_fault_index_unchecked vma vmf s o arr :
  heap s !! vm_private_data vma = Some o ->
  pages o = Some arr ->
  ((exists v s', evdi_gem_fault K vma vmf s = Done v s') <->
   (Z.to_nat (fault_page_offset vma vmf) < length arr)%nat) /\
  (evdi_gem_fault K vma vmf s = Oops s <->
   (length arr <= Z.to_nat (fault_page_offset vma vmf))%nat) /\
  (0 <= vm_start vma <= virtual_address vmf ->
   virtual_address vmf < 2 ^ Z.of_nat BITS_PER_LONG ->
   (virtual_address vmf - vm_start vma) / PAGE_SIZE < 2 ^ 32 ->
   length arr = Z.to_nat (obj_size (base o) / PAGE_SIZE) ->
   ((exists v s', evdi_gem_fault K vma vmf s = Done v s') <->
    (virtual_address vmf - vm_start vma) / PAGE_SIZE
    < obj_size (base o) / PAGE_SIZE)).
Proof.
  intros Ho Hp.
  assert (Hin : (exists v s', evdi_gem_fault K vma vmf s = Done v s') <->
                (Z.to_nat (fault_page_offset vma vmf) < length arr)%nat).
  { split.
    - intros (v & s' & R).
      destruct (arr !! Z.to_nat (fault_page_offset vma vmf)) as [pg|] eqn:Hpg.
      + apply lookup_lt_Some in Hpg. exact Hpg.
      + rewrite (evdi_gem_fault_out_of_bounds _ _ _ _ _ Ho Hp Hpg) in R.
        discriminate R.
    - intros Hlt. apply lookup_lt_is_Some in Hlt. destruct Hlt as [pg Hpg].
      eapply evdi_gem_fault_in_bounds; eassumption. }
  split; [exact Hin|]. split.
  - split.
    + intros R.
      destruct (le_lt_dec (length arr) (Z.to_nat (fault_page_offset vma vmf)))
        as [Hle|Hlt]; [exact Hle|].
      apply Hin in Hlt. destruct Hlt as (v & s' & R'). congruence.
    + intros Hle. apply lookup_ge_None in Hle.
      eapply evdi_gem_fault_out_of_bounds; eassumption.
  - intros Hs Ha Hn Hlen. rewrite Hin, Hlen.
    rewrite (fault_page_offset_near _ _ Hs Ha Hn).
    assert (0 <= (virtual_address vmf - vm_start vma) / PAGE_SIZE)
      by (apply Z.div_pos; [lia | apply PAGE_SIZE_pos]).
    lia.
Qed.

End FaultIndex.

Lemma evdi_gem_fault_index_unchecked_witness :
  evdi_gem_fault (H := x86_64) willing the_vma (fault_at 8192)
    (one_object (local_object (Some [10%N; 11%N]) None))
  = Oops (one_object (local_object (Some [10%N; 11%N]) None)).
Proof.
  destruct (evdi_gem_fault_index_unchecked (H := x86_64) willing the_vma
              (fault_at 8192)
              (one_object (local_object (Some [10%N; 11%N]) None))
              (local_object (Some [10%N; 11%N]) None) [10%N; 11%N]
              eq_refl eq_refl) as (_ & Hout & _).
  apply Hout. vm_compute. lia.
Defined.

(** ** The scenario of the specification, run on the model *)

Example scenario_values :
  value (scenario boot)
  = Some (0,
          {| height := 50; width := 100; bpp := 32; flags := 0;
             handle := 1; pitch := 400; size := 20000 |},
          (0, Some 0x100000000),
          VM_FAULT_NOPAGE).
Proof. vm_compute. reflexivity. Qed.

Example scenario_calls :
  klog (final (scenario boot))
  = [Call_kzalloc (Some 0%N);
     Call_drm_gem_object_init 1%N 0%N 20480 0;
     Call_drm_gem_handle_create 0%N 0 1;
     Call_drm_gem_object_unreference 0%N;
     Call_mutex_lock 1%N;
     Call_drm_gem_object_lookup 1 (Some 0%N);
     Call_drm_gem_get_pages 0%N (Ptr [10%N; 11%N; 12%N; 13%N; 14%N]);
     Call_drm_gem_create_mmap_offset 0%N 0;
     Call_drm_gem_object_unreference 0%N;
     Call_mutex_unlock 1%N;
     Call_vm_insert_page 0x7f0000000000 10%N 0;
     Call_drm_gem_put_pages 0%N (Some [10%N; 11%N; 12%N; 13%N; 14%N]);
     Call_drm_gem_free_mmap_offset 0%N].
Proof. vm_compute. reflexivity. Qed.

Example scenario_leaves_no_pages :
  heap (final (scenario boot)) !! 0%N
  = Some {| base := {| dev := 1%N; refcount := 1; obj_size := 20480;
                       import_attach := None; vma_node := None |};
            pages := None; vmapping := None; sg := None |}.
Proof. vm_compute. reflexivity. Qed.

(** * Further properties of the code *)

(** ** Allocation and creation: what a failure leaves behind *)

Ltac ask f :=
  match goal with
  | |- context [f ?k ?t] =>
      let E := fresh "Hask" in destruct (f k t) eqn:E
  end.

Section Allocation.
Context `{Platform} (K : kernel).

(** X1.  [evdi_gem_alloc_object] always returns.  When it returns NULL the
    heap is as it was: an object that could not be initialised has been
    freed again.  When it returns an object, that object is new, and holds
    the device, the size asked for, one reference and nothing else. *)
Theorem evdi_gem_alloc_object_all_or_nothing d sz s :
  exists p s',
    evdi_gem_alloc_object K d sz s = Done p s' /\
    handles s' = handles s /\
    match p with
    | Some obj =>
        heap s !! obj = None /\
        heap s' = <[obj := fresh_object d sz]> (heap s) /\
        emitted s s' = [Call_kzalloc (Some obj);
                        Call_drm_gem_object_init d obj sz 0]
    | None =>
        heap s' = heap s /\
        (forall p, In (Call_kzalloc (Some p)) (emitted s s') ->
                   In (Call_kfree p) (emitted s s'))
    end.
Proof.
  kunfold. kall.
  destruct (kzalloc_ok K (length (klog s))) eqn:Hz; kall.
  - destruct (decide (drm_gem_object_init_ret K (length (klog s) + 1) = 0))
      as [Hi|Hi]; kall.
    + eexists _, _. split; [reflexivity|]. know_emitted.
      split; [reflexivity|].
      split; [apply not_elem_of_dom, is_fresh|].
      split; [simpl; rewrite insert_insert_eq; reflexivity|].
      reflexivity.
    + eexists _, _. split; [reflexivity|]. know_emitted.
      split; [reflexivity|]. split.
      * simpl. rewrite delete_insert_eq. apply delete_id.
        apply not_elem_of_dom, is_fresh.
      * intros p Hin. in_log. simplify_eq. simpl. tauto.
  - eexists _, _. split; [reflexivity|]. know_emitted.
    split; [reflexivity|]. split; [reflexivity|].
    intros p Hin. in_log.
Qed.




Lemma evdi_gem_create_success d sz s hd s' :
  evdi_gem_create K d sz s = Done (0, Some hd) s' ->
  exists obj o',
    handles s' !! hd = Some obj /\
    heap s' !! obj = Some o' /\
    heap s !! obj = None /\
    obj_size (base o') = ulong (roundup sz PAGE_SIZE) /\
    refcount (base o') = 1 /\
    pages o' = None /\ vmapping o' = None.
Proof.
  intros R.
  destruct (evdi_gem_create_run K d sz s) as (r0 & h0 & s0 & R0 & _ & Hok).
  rewrite R in R0. injection R0 as <- <- <-.
  destruct (Hok eq_refl)
    as (hd' & obj & o' & [= <-] & Hhd & Ho' & Hnew & _ & Hsz & Hrc & Hp & Hv).
  exists obj, o'. repeat split; assumption.
Qed.

(** X4.  The object a successful [evdi_gem_create] registers has the size
    asked for rounded up to whole pages: a multiple of the page size, at
    least the size asked for and less than a page above it (for a size that
    leaves room for the rounding in 64 bits and in [size_t]). *)
Theorem evdi_gem_create_whole_pages d sz s hd s' :
  0 <= sz ->
  sz + PAGE_SIZE <= 2 ^ 64 ->
  sz + PAGE_SIZE <= 2 ^ Z.of_nat BITS_PER_LONG ->
  evdi_gem_create K d sz s = Done (0, Some hd) s' ->
  exists obj o',
    handles s' !! hd = Some obj /\
    heap s' !! obj = Some o' /\
    obj_size (base o') mod PAGE_SIZE = 0 /\
    sz <= obj_size (base o') < sz + PAGE_SIZE.
Proof.
  intros Hsz H64 Hl R.
  destruct (evdi_gem_create_success d sz s hd s' R)
    as (obj & o' & Hhd & Ho' & _ & E & _).
  destruct (roundup_spec sz PAGE_SIZE Hsz PAGE_SIZE_pos H64)
    as (_ & Hm & Hb).
  exists obj, o'. split; [exact Hhd|]. split; [exact Ho'|].
  rewrite E. unfold ulong, wrap.
  rewrite (Z.mod_small (roundup sz PAGE_SIZE)) by lia.
  split; assumption.
Qed.

(** X5.  On a platform where [2 ^ 32 + PAGE_SIZE] fits in [size_t] and in
    64 bits, and for a request within the 32-bit bounds, the object a
    successful [evdi_dumb_create] registers is large enough for the image:
    its size in bits is at least [width * height * bpp]. *)
Theorem evdi_dumb_create_holds_image d args s args' s' :
  0 <= width args < 2 ^ 32 ->
  0 <= height args < 2 ^ 32 ->
  0 <= bpp args <= 2 ^ 32 - 8 ->
  spec_pitch (width args) (bpp args) < 2 ^ 32 ->
  spec_size (width args) (bpp args) (height args) < 2 ^ 32 ->
  2 ^ 32 + PAGE_SIZE <= 2 ^ Z.of_nat BITS_PER_LONG ->
  2 ^ 32 + PAGE_SIZE <= 2 ^ 64 ->
  evdi_dumb_create K d args s = Done (0, args') s' ->
  exists obj o',
    handles s' !! handle args' = Some obj /\
    heap s' !! obj = Some o' /\
    width args * bpp args <= 8 * pitch args' /\
    width args * height args * bpp args <= 8 * size args' /\
    size args' <= obj_size (base o').
Proof.
  intros Hw Hh Hb Hp Hs Hl H64 R.
  destruct (evdi_dumb_create_run K d args s) as (r0 & h0 & s0 & Rc & Rd).
  rewrite R in Rd. injection Rd as <- -> <-.
  destruct (evdi_gem_create_run K d
              (u64 (u32 (u32 (width args * DIV_ROUND_UP (bpp args) 8)
                         * height args))) s)
    as (r1 & h1 & s1 & R1 & _ & Hok).
  rewrite Rc in R1. injection R1 as <- <- <-.
  destruct (Hok eq_refl)
    as (hd & obj & o' & -> & Hhd & Ho' & _ & _ & Hsz & _).
  cbn [handle pitch size].
  assert (Ec : 0 <= ceil_div (bpp args) 8)
    by (unfold ceil_div; apply Z.div_pos; lia).
  assert (Ebits : bpp args <= 8 * ceil_div (bpp args) 8).
  { unfold ceil_div.
    pose proof (Z.div_mod (bpp args + 8 - 1) 8 ltac:(lia)).
    pose proof (Z.mod_pos_bound (bpp args + 8 - 1) 8 ltac:(lia)). lia. }
  assert (Ep : u32 (width args * DIV_ROUND_UP (bpp args) 8)
               = spec_pitch (width args) (bpp args)).
  { rewrite DIV_ROUND_UP_8_ceil by exact Hb. apply u32_small.
    unfold spec_pitch in *. split; [apply Z.mul_nonneg_nonneg; lia | exact Hp]. }
  assert (Hpn : 0 <= spec_pitch (width args) (bpp args))
    by (unfold spec_pitch; apply Z.mul_nonneg_nonneg; lia).
  assert (Es : u64 (u32 (u32 (width args * DIV_ROUND_UP (bpp args) 8)
                         * height args))
               = spec_size (width args) (bpp args) (height args)).
  { rewrite u64_u32, Ep. apply u32_small. unfold spec_size in *.
    split; [apply Z.mul_nonneg_nonneg; lia | exact Hs]. }
  assert (Hsn : 0 <= spec_size (width args) (bpp args) (height args))
    by (unfold spec_size; apply Z.mul_nonneg_nonneg; lia).
  rewrite Es in *. rewrite Ep.
  assert (Hfit : spec_size (width args) (bpp args) (height args) + PAGE_SIZE
                 <= 2 ^ 64) by lia.
  destruct (roundup_spec (spec_size (width args) (bpp args) (height args))
              PAGE_SIZE Hsn PAGE_SIZE_pos Hfit) as (_ & _ & Hb').
  exists obj, o'. split; [exact Hhd|]. split; [exact Ho'|].
  rewrite Hsz. unfold ulong, wrap.
  rewrite (Z.mod_small (roundup _ PAGE_SIZE)) by lia.
  unfold spec_size, spec_pitch in *.
  assert (E1 : width args * bpp args
               <= width args * (8 * ceil_div (bpp args) 8))
    by (apply Z.mul_le_mono_nonneg_l; lia).
  assert (E2 : width args * height args * bpp args
               <= width args * height args * (8 * ceil_div (bpp args) 8)).
  { apply Z.mul_le_mono_nonneg_l; [apply Z.mul_nonneg_nonneg; lia | lia]. }
  repeat split; lia.
Qed.

End Allocation.

(** ** Kernel mappings *)

Lemma to_int_small z : 0 <= z < 2 ^ 31 -> to_int z = z.
Proof.
  intros Hz. unfold to_int, swrap. cbv zeta.
  change (2 ^ Z.of_nat 32) with 4294967296.
  change (4294967296 / 2) with 2147483648.
  change (2 ^ 31) with 2147483648 in Hz.
  rewrite Z.mod_small by lia.
  destruct (Z_lt_dec z 2147483648); [reflexivity | lia].
Qed.

Section KernelMapping.
Context `{Platform} (K : kernel).

(** X6.  [evdi_gem_vmap] on an imported object maps the foreign buffer with
    [dma_buf_vmap] and does nothing else: it asks for no pages and leaves
    the page array alone.  It returns [0] when the primitive gave an address
    and [-ENOMEM] when it gave none; either way the answer is what the
    object now holds as its mapping. *)
Theorem evdi_gem_vmap_imported obj o att s :
  heap s !! obj = Some o ->
  import_attach (base o) = Some att ->
  exists r s' o',
    evdi_gem_vmap K obj s = Done r s' /\
    emitted s s' = [Call_dma_buf_vmap (dmabuf att) (vmapping o')] /\
    heap s' = <[obj := o']> (heap s) /\
    pages o' = pages o /\ base o' = base o /\ sg o' = sg o /\
    (r = 0 <-> is_Some (vmapping o')) /\
    (r <> 0 -> r = - ENOMEM).
Proof.
  intros Ho Hi. kunfold. kall.
  destruct (dma_buf_vmap_ret K (length (klog s))) as [v|] eqn:Hv; kall.
  - eexists _, _, (set_vmapping (Some v) o).
    split; [reflexivity|]. know_emitted.
    split; [reflexivity|]. split; [reflexivity|].
    repeat split; try reflexivity; try eauto; intros; congruence.
  - eexists _, _, (set_vmapping None o).
    split; [reflexivity|]. know_emitted.
    split; [reflexivity|]. split; [reflexivity|].
    repeat split; try reflexivity.
    + unfold ENOMEM. intros [=].
    + intros [? [=]].
Qed.

Ltac vmap_path :=
  intros; simplify_eq;
  repeat match goal with |- _ /\ _ => split end;
  simpl; try match goal with Hx : pages _ = _ |- _ => rewrite Hx end;
  try reflexivity; try congruence.

(** X7.  [evdi_gem_vmap] on a local object returns.  If it returns [0] the
    object has its pages and a mapping over them, of the page count the
    driver computes: [size / PAGE_SIZE] converted to [int], which is
    [size / PAGE_SIZE] itself when that is below [2 ^ 31].  If the page
    allocation fails, that error is returned and [vmap] is not called.  If
    [vmap] gives no address the result is [-ENOMEM], and the pages stay
    materialized with no mapping.  Path by path, by what the kernel answers:
    with pages present, [vmap] over them is the only call, its answer is
    stored as the mapping, and the result is [0] for an address and
    [-ENOMEM] for none; with no pages and a failing page allocation, that
    call is the only one, its error is the result and the heap is as it was;
    with no pages and a page allocation that succeeds, the pages are stored
    and [vmap] is called over them, with the same outcome as in the first
    case. *)
Theorem evdi_gem_vmap_local obj o s :
  heap s !! obj = Some o ->
  import_attach (base o) = None ->
  exists r s' o',
    evdi_gem_vmap K obj s = Done r s' /\
    heap s' = <[obj := o']> (heap s) /\
    base o' = base o /\
    (r = 0 ->
     exists arr v,
       pages o' = Some arr /\ vmapping o' = Some v /\
       In (Call_vmap (Some arr) (to_int (obj_size (base o) / PAGE_SIZE))
             (Some v)) (emitted s s')) /\
    (forall e,
       In (Call_drm_gem_get_pages obj (ErrPtr e)) (emitted s s') ->
       r = Z.neg e /\ o' = o /\
       count (fun ev => match ev with
                        | Call_vmap _ _ _ => true
                        | _ => false
                        end) (emitted s s') = 0%nat) /\
    (forall p n,
       In (Call_vmap p n None) (emitted s s') ->
       r = - ENOMEM /\ is_Some (pages o') /\ vmapping o' = None) /\
    (0 <= obj_size (base o) / PAGE_SIZE < 2 ^ 31 ->
     to_int (obj_size (base o) / PAGE_SIZE) = obj_size (base o) / PAGE_SIZE) /\
    (forall arr,
       pages o = Some arr ->
       emitted s s' =
         [Call_vmap (Some arr) (to_int (obj_size (base o) / PAGE_SIZE))
            (vmap_ret K (length (klog s)))] /\
       o' = set_vmapping (vmap_ret K (length (klog s))) o /\
       r = match vmap_ret K (length (klog s)) with
           | Some _ => 0
           | None => - ENOMEM
           end) /\
    (forall e,
       pages o = None ->
       drm_gem_get_pages_ret K (length (klog s)) = ErrPtr e ->
       r = Z.neg e /\ o' = o /\ heap s' = heap s /\
       emitted s s' = [Call_drm_gem_get_pages obj (ErrPtr e)]) /\
    (forall arr,
       pages o = None ->
       drm_gem_get_pages_ret K (length (klog s)) = Ptr arr ->
       emitted s s' =
         [Call_drm_gem_get_pages obj (Ptr arr);
          Call_vmap (Some arr) (to_int (obj_size (base o) / PAGE_SIZE))
            (vmap_ret K (length (klog s) + 1)%nat)] /\
       o' = set_vmapping (vmap_ret K (length (klog s) + 1)%nat)
              (set_pages (Some arr) o) /\
       r = match vmap_ret K (length (klog s) + 1)%nat with
           | Some _ => 0
           | None => - ENOMEM
           end).
Proof.
  intros Ho Hi. kunfold. kall.
  destruct (pages o) as [arr|] eqn:Hp; kall.
  - destruct (vmap_ret K (length (klog s))) as [v|] eqn:Hv; kall.
    + eexists _, _, _. split; [reflexivity|]. know_emitted.
      split; [simpl; rewrite ?insert_insert_eq; reflexivity|].
      split; [reflexivity|].
      split; [intros _; eexists _, _; simpl; rewrite Hp; eauto|].
      split; [intros e Hin; in_log|].
      split; [intros p n Hin; in_log|].
      split; [apply to_int_small|].
      split; [vmap_path|]. split; vmap_path.
    + eexists _, _, _. split; [reflexivity|]. know_emitted.
      split; [simpl; rewrite ?insert_insert_eq; reflexivity|].
      split; [reflexivity|].
      split; [unfold ENOMEM; intros [=]|].
      split; [intros e Hin; in_log|].
      split; [intros p n Hin; simpl; rewrite Hp; eauto|].
      split; [apply to_int_small|].
      split; [vmap_path|]. split; vmap_path.
  - destruct (drm_gem_get_pages_ret K (length (klog s))) as [arr|e] eqn:Hg;
      kall.
    + destruct (vmap_ret K (length (klog s) + 1)) as [v|] eqn:Hv; kall.
      * eexists _, _, _. split; [reflexivity|]. know_emitted.
        split; [simpl; rewrite ?insert_insert_eq; reflexivity|].
        split; [reflexivity|].
        split; [intros _; eexists _, _; simpl; eauto|].
        split; [intros e Hin; in_log|].
        split; [intros p n Hin; in_log|].
        split; [apply to_int_small|].
        split; [vmap_path|]. split; vmap_path.
      * eexists _, _, _. split; [reflexivity|]. know_emitted.
        split; [simpl; rewrite ?insert_insert_eq; reflexivity|].
        split; [reflexivity|].
        split; [unfold ENOMEM; intros [=]|].
        split; [intros e Hin; in_log|].
        split; [intros p n Hin; simpl; eauto|].
        split; [apply to_int_small|].
        split; [vmap_path|]. split; vmap_path.
    + exists (Z.neg e). eexists. exists o. split; [reflexivity|]. know_emitted.
      split; [simpl; symmetry; apply insert_id, Ho|].
      split; [reflexivity|].
      split; [intros [=]|].
      split; [intros e' Hin; in_log; simplify_eq; auto|].
      split; [intros p n Hin; in_log|].
      split; [apply to_int_small|].
      split; [vmap_path|]. split; vmap_path.
Qed.

(** X8.  Mapping a local object that has neither pages nor a mapping and
    unmapping it again gives the heap back as it was: the pages that were
    acquired for the mapping are exactly the pages returned. *)
Theorem evdi_gem_vmap_vunmap_round_trip obj o arr v s :
  heap s !! obj = Some o ->
  import_attach (base o) = None ->
  pages o = None ->
  vmapping o = None ->
  drm_gem_get_pages_ret K (length (klog s)) = Ptr arr ->
  vmap_ret K (length (klog s) + 1)%nat = Some v ->
  exists s1 s2,
    evdi_gem_vmap K obj s = Done 0 s1 /\
    evdi_gem_vunmap obj s1 = Done tt s2 /\
    heap s2 = heap s /\
    handles s2 = handles s /\
    emitted s s2 =
      [Call_drm_gem_get_pages obj (Ptr arr);
       Call_vmap (Some arr) (to_int (obj_size (base o) / PAGE_SIZE)) (Some v);
       Call_vunmap v;
       Call_drm_gem_put_pages obj (Some arr)].
Proof.
  intros Ho Hi Hp Hv Hg Hm.
  assert (R1 : exists s1,
             evdi_gem_vmap K obj s = Done 0 s1 /\
             heap s1 = <[obj := set_vmapping (Some v)
                                  (set_pages (Some arr) o)]> (heap s) /\
             handles s1 = handles s /\
             klog s1 = klog s ++
               [Call_drm_gem_get_pages obj (Ptr arr);
                Call_vmap (Some arr) (to_int (obj_size (base o) / PAGE_SIZE))
                  (Some v)]).
  { kunfold. kall. eexists. split; [reflexivity|].
    split; [simpl; rewrite ?insert_insert_eq; reflexivity|].
    split; [reflexivity|]. simpl. rewrite <- app_assoc. reflexivity. }
  destruct R1 as (s1 & R1 & Hh1 & Ht1 & Hl1).
  exists s1. rewrite R1.
  assert (Ho1 : heap s1 !! obj
                = Some (set_vmapping (Some v) (set_pages (Some arr) o)))
    by (rewrite Hh1; apply lookup_insert_eq).
  rewrite (vunmap_local_mapped obj _ v s1 Ho1 Hi eq_refl).
  eexists. split; [reflexivity|]. split; [reflexivity|]. simpl.
  split.
  - rewrite Hh1, !insert_insert_eq. apply insert_id. rewrite Ho.
    f_equal. destruct o; simpl in *; subst; reflexivity.
  - split; [exact Ht1|]. apply emitted_app. simpl. rewrite Hl1.
    rewrite <- !app_assoc. reflexivity.
Qed.

(** X9.  [evdi_gem_vmap] does not look at a mapping the object already has:
    on a local object with pages, mapped at [v0], it maps the pages again
    and stores the new address.  [vmap] is its only call; the mapping at
    [v0] is not torn down. *)
Theorem evdi_gem_vmap_again_replaces obj o arr v0 v1 s :
  heap s !! obj = Some o ->
  import_attach (base o) = None ->
  pages o = Some arr ->
  vmapping o = Some v0 ->
  vmap_ret K (length (klog s)) = Some v1 ->
  exists s',
    evdi_gem_vmap K obj s = Done 0 s' /\
    heap s' = <[obj := set_vmapping (Some v1) o]> (heap s) /\
    emitted s s' =
      [Call_vmap (Some arr) (to_int (obj_size (base o) / PAGE_SIZE))
         (Some v1)].
Proof.
  intros Ho Hi Hp Hv Hm. kunfold. kall.
  eexists. split; [reflexivity|]. know_emitted.
  split; [reflexivity|]. rewrite Hp. reflexivity.
Qed.

End KernelMapping.

(** ** Releases by ownership *)

Ltac count_zero :=
  match goal with
  | |- context [emitted ?a ?b] =>
      erewrite (emitted_app a b)
        by (simpl; rewrite <- ?app_assoc; reflexivity)
  end; reflexivity.

(** X10.  What is released follows from who owns it.  On an imported object
    neither [evdi_gem_put_pages], nor [evdi_gem_vunmap], nor
    [evdi_gem_free_object] ever calls [drm_gem_put_pages] or [vunmap]: the
    foreign pages are never returned to the local allocator.  On a local
    object none of them calls [drm_free_large], [dma_buf_vunmap],
    [drm_prime_gem_destroy] or [put_device]. *)
Theorem evdi_gem_release_by_ownership obj o s :
  heap s !! obj = Some o ->
  exists s1 s2 s3,
    evdi_gem_put_pages obj s = Done tt s1 /\
    evdi_gem_vunmap obj s = Done tt s2 /\
    evdi_gem_free_object obj s = Done tt s3 /\
    (is_Some (import_attach (base o)) ->
     Forall (fun s' => count is_local_release (emitted s s') = 0%nat)
       [s1; s2; s3]) /\
    (import_attach (base o) = None ->
     Forall (fun s' => count is_foreign_release (emitted s s') = 0%nat)
       [s1; s2; s3]).
Proof.
  intros Ho.
  destruct (import_attach (base o)) as [att|] eqn:Hi,
           (vmapping o) as [v|] eqn:Hv,
           (pages o) as [arr|] eqn:Hp;
    kunfold; kall;
    (eexists _, _, _; split; [reflexivity|]; split; [reflexivity|];
     split; [reflexivity|]; split;
     [ intros Hs; first [ solve [destruct Hs as [? Hs']; discriminate Hs']
                        | repeat constructor; count_zero ]
     | intros Hs; first [ discriminate Hs
                        | repeat constructor; count_zero ] ]).
Qed.


(** ** Imports: every path of [evdi_gem_prime_import] *)

Lemma heap_kept (h : gmap addr evdi_gem_object) q x p o :
  h !! q = None -> h !! p = Some o -> <[q := x]> h !! p = Some o.
Proof.
  intros Hq Hp. rewrite lookup_insert_ne; [exact Hp|].
  intros ->. congruence.
Qed.

Lemma fresh_is_free (h : gmap addr evdi_gem_object) : h !! fresh (dom h) = None.
Proof. apply not_elem_of_dom, is_fresh. Qed.

Ltac keep_heap :=
  let p := fresh "p" in let o := fresh "o" in let Hp := fresh "Hp" in
  intros p o Hp; simpl;
  rewrite ?insert_insert_eq, ?delete_insert_eq;
  first [ exact Hp
        | rewrite delete_id by apply fresh_is_free; exact Hp
        | apply heap_kept; [apply fresh_is_free | exact Hp] ].

Section ImportPaths.
Context `{Platform} (K : kernel).

(** X11.  [evdi_gem_prime_import] always returns, takes the device reference
    once, and leaves the handle table and every object already in the heap
    alone.  When it returns an error, the error number is negative and
    everything taken from the foreign side has been given back: the device
    reference, the attachment if one was made, the foreign-buffer reference
    if one was taken, the scatter-gather mapping if one was made.  When it
    returns an object, nothing has been given back, and the object is new,
    holds one reference and carries the attachment, the scatter-gather table
    and a page array. *)
Theorem evdi_gem_prime_import_balanced d b s :
  exists res s',
    evdi_gem_prime_import K d b s = Done res s' /\
    handles s' = handles s /\
    (forall p o, heap s !! p = Some o -> heap s' !! p = Some o) /\
    count is_get_device (emitted s s') = 1%nat /\
    match res with
    | inl r =>
        r < 0 /\
        count is_put_device (emitted s s') = 1%nat /\
        count is_detach (emitted s s') = count is_attach (emitted s s') /\
        count is_dma_buf_put (emitted s s')
        = count is_get_dma_buf (emitted s s') /\
        count is_unmap_attachment (emitted s s')
        = count is_map_attachment (emitted s s')
    | inr u =>
        count is_import_undo (emitted s s') = 0%nat /\
        count is_attach (emitted s s') = 1%nat /\
        count is_get_dma_buf (emitted s s') = 1%nat /\
        count is_map_attachment (emitted s s') = 1%nat /\
        heap s !! u = None /\
        exists o',
          heap s' !! u = Some o' /\
          is_Some (import_attach (base o')) /\
          is_Some (sg o') /\ is_Some (pages o') /\
          refcount (base o') = 1 /\ vmapping o' = None
    end.
Proof.
  kunfold. kall.
  ask dma_buf_attach_ret; kall.
  2:{ eexists _, _. split; [reflexivity|]. know_emitted.
      split; [reflexivity|]. split; [keep_heap|].
      split; [reflexivity|]. repeat split. }
  ask dma_buf_map_attachment_ret; kall.
  2:{ eexists _, _. split; [reflexivity|]. know_emitted.
      split; [reflexivity|]. split; [keep_heap|].
      split; [reflexivity|]. repeat split. }
  ask kzalloc_ok; kall.
  2:{ eexists _, _. split; [reflexivity|]. know_emitted.
      split; [reflexivity|]. split; [keep_heap|].
      split; [reflexivity|]. unfold ENOMEM. repeat split. }
  match goal with
  | |- context [decide (drm_gem_object_init_ret K ?t = 0)] =>
      destruct (decide (drm_gem_object_init_ret K t = 0)) as [Hi|Hi]
  end; kall.
  2:{ eexists _, _. split; [reflexivity|]. know_emitted.
      split; [reflexivity|]. split; [keep_heap|].
      split; [reflexivity|]. unfold ENOMEM. repeat split. }
  ask drm_malloc_ab_ok; kall.
  - eexists _, _. split; [reflexivity|]. know_emitted.
    split; [reflexivity|]. split; [keep_heap|].
    split; [reflexivity|]. split; [reflexivity|]. split; [reflexivity|].
    split; [reflexivity|]. split; [reflexivity|].
    split; [apply fresh_is_free|].
    eexists. split; [apply lookup_insert_eq|]. simpl. eauto 10.
  - eexists _, _. split; [reflexivity|]. know_emitted.
    split; [reflexivity|]. split; [keep_heap|].
    split; [reflexivity|]. unfold ENOMEM. repeat split.
Qed.

Lemma sg_fill_length (src : list page) n :
  length (take (length (replicate n 0%N))
            (take n src ++ drop (length (take n src)) (replicate n 0%N)))
  = n.
Proof.
  rewrite length_take, length_app, length_drop, !length_replicate, length_take.
  lia.
Qed.

(** X12.  The object [evdi_prime_create] builds for a foreign buffer of
    [sz] bytes has the size of the whole pages in [sz]: [sz] rounded down to
    a multiple of the page size.  Its page array has one entry per such
    page, so for a buffer smaller than a page the object has size zero and
    an empty page array.  (For [sz] a [size_t] value with fewer than [2^31]
    pages, the range of the [int] page count.) *)
Theorem evdi_prime_create_whole_pages d sz t s obj s' :
  0 <= sz < 2 ^ Z.of_nat BITS_PER_LONG ->
  sz / PAGE_SIZE < 2 ^ 31 ->
  evdi_prime_create K d sz t s = Done (0, Some obj) s' ->
  exists o' arr,
    heap s' !! obj = Some o' /\
    obj_size (base o') = sz / PAGE_SIZE * PAGE_SIZE /\
    obj_size (base o') <= sz < obj_size (base o') + PAGE_SIZE /\
    pages o' = Some arr /\
    length arr = Z.to_nat (sz / PAGE_SIZE) /\
    sg o' = Some t /\
    (sz < PAGE_SIZE -> obj_size (base o') = 0 /\ arr = []).
Proof.
  intros Hsz Hn R.
  assert (Hq : 0 <= sz / PAGE_SIZE)
    by (apply Z.div_pos; [lia | apply PAGE_SIZE_pos]).
  pose proof PAGE_SIZE_pos as Hpos.
  assert (Hnz : PAGE_SIZE <> 0) by lia.
  pose proof (Z.div_mod sz PAGE_SIZE Hnz) as Hdm.
  pose proof (Z.mod_pos_bound sz PAGE_SIZE Hpos) as Hmb.
  revert R. kunfold. kall.
  rewrite (to_int_small (sz / PAGE_SIZE)) by lia.
  ask kzalloc_ok; kall; [|intros [=]].
  match goal with
  | |- context [decide (drm_gem_object_init_ret K ?t = 0)] =>
      destruct (decide (drm_gem_object_init_ret K t = 0)) as [Hi|Hi]
  end; kall; [|intros [=]].
  ask drm_malloc_ab_ok; kall; [|intros [=]].
  intros [= <- <-].
  eexists _, _. split; [apply lookup_insert_eq|]. cbn [base obj_size pages sg set_pages set_sg set_base].
  assert (Eu : ulong (sz / PAGE_SIZE * PAGE_SIZE) = sz / PAGE_SIZE * PAGE_SIZE).
  { unfold ulong, wrap. apply Z.mod_small. nia. }
  rewrite Eu.
  split; [reflexivity|]. split; [nia|]. split; [reflexivity|].
  split; [apply sg_fill_length|]. split; [reflexivity|].
  intros Hsmall. rewrite (Z.div_small sz PAGE_SIZE) by lia.
  split; reflexivity.
Qed.

Lemma emitted_trans s s1 s2 l1 l2 :
  klog s1 = klog s ++ l1 -> klog s2 = klog s1 ++ l2 ->
  emitted s s2 = l1 ++ l2.
Proof.
  intros E1 E2. apply emitted_app. rewrite E2, E1, app_assoc. reflexivity.
Qed.

Lemma evdi_gem_prime_import_object d b s u s' :
  evdi_gem_prime_import K d b s = Done (inr u) s' ->
  exists att t arr n sz,
    klog s' = klog s ++
      [Call_get_device d; Call_dma_buf_attach b d (Ptr att);
       Call_get_dma_buf b; Call_dma_buf_map_attachment att (Ptr t);
       Call_kzalloc (Some u); Call_drm_gem_object_init d u sz 0;
       Call_drm_malloc_ab n true;
       Call_drm_prime_sg_to_page_addr_arrays t n] /\
    heap s !! u = None /\
    handles s' = handles s /\
    heap s' =
      <[u := {| base := {| dev := d; refcount := 1; obj_size := sz;
                           import_attach := Some att; vma_node := None |};
                pages := Some arr; vmapping := None; sg := Some t |}]>
        (heap s).
Proof.
  kunfold. kall.
  ask dma_buf_attach_ret; kall; [|intros [=]].
  ask dma_buf_map_attachment_ret; kall; [|intros [=]].
  ask kzalloc_ok; kall; [|intros [=]].
  match goal with
  | |- context [decide (drm_gem_object_init_ret K ?t = 0)] =>
      destruct (decide (drm_gem_object_init_ret K t = 0)) as [Hi|Hi]
  end; kall; [|intros [=]].
  ask drm_malloc_ab_ok; kall; [|intros [=]].
  intros [= <- <-]. eexists _, _, _, _, _.
  split; [simpl; rewrite <- ?app_assoc; reflexivity|].
  split; [apply fresh_is_free|]. split; [reflexivity|].
  simpl. rewrite !insert_insert_eq. reflexivity.
Qed.

(** X13.  An import followed by the final teardown of the object it gave
    gives everything back once: the teardown releases the import with the
    very scatter-gather table the import mapped, drops the device reference
    the import took, frees the page array and the mmap offset, and calls
    neither [drm_gem_put_pages] nor [vunmap].  Over the two calls the device
    reference is taken once and dropped once. *)
Theorem evdi_gem_prime_import_then_free d b s u s' :
  evdi_gem_prime_import K d b s = Done (inr u) s' ->
  exists s'' att t arr o'',
    In (Call_dma_buf_map_attachment att (Ptr t)) (emitted s s') /\
    evdi_gem_free_object u s' = Done tt s'' /\
    emitted s' s'' =
      [Call_drm_prime_gem_destroy u (Some t); Call_put_device d;
       Call_drm_free_large (Some arr); Call_drm_gem_free_mmap_offset u] /\
    count is_get_device (emitted s s'') = 1%nat /\
    count is_put_device (emitted s s'') = 1%nat /\
    heap s'' !! u = Some o'' /\
    pages o'' = None /\ vmapping o'' = None.
Proof.
  intros R.
  destruct (evdi_gem_prime_import_object d b s u s' R)
    as (att & t & arr & n & sz & Hl & Hnew & Ht & Hh).
  assert (Hu : heap s' !! u = Some
            {| base := {| dev := d; refcount := 1; obj_size := sz;
                          import_attach := Some att; vma_node := None |};
               pages := Some arr; vmapping := None; sg := Some t |})
    by (rewrite Hh; apply lookup_insert_eq).
  assert (F : exists s'',
             evdi_gem_free_object u s' = Done tt s'' /\
             klog s'' = klog s' ++
               [Call_drm_prime_gem_destroy u (Some t); Call_put_device d;
                Call_drm_free_large (Some arr);
                Call_drm_gem_free_mmap_offset u] /\
             exists o'', heap s'' !! u = Some o'' /\
                         pages o'' = None /\ vmapping o'' = None).
  { clear R. kunfold. kall. eexists. split; [reflexivity|].
    split; [simpl; rewrite <- ?app_assoc; reflexivity|].
    eexists. split; [apply lookup_insert_eq|]. split; reflexivity. }
  destruct F as (s'' & F & Hl2 & o'' & Ho'' & Hp'' & Hv'').
  exists s'', att, t, arr, o''.
  split; [rewrite (emitted_app _ _ _ Hl); simpl; tauto|].
  split; [exact F|].
  split; [apply (emitted_app _ _ _ Hl2)|].
  rewrite (emitted_trans _ _ _ _ _ Hl Hl2).
  repeat split; assumption.
Qed.

(** X14.  Right after a successful import, [evdi_gem_get_pages] on the
    object returned succeeds at once: it returns [0] and leaves the state,
    log included, as the import left it, whatever the page allocator would
    answer.  This is because the import has stored a page array, not
    because [evdi_gem_get_pages] tells an imported object from a local
    one: it does not. *)
Theorem evdi_gem_prime_import_then_get_pages K' d b s u s' :
  evdi_gem_prime_import K d b s = Done (inr u) s' ->
  evdi_gem_get_pages K' u s' = Done 0 s'.
Proof.
  intros R.
  destruct (evdi_gem_prime_import_object d b s u s' R)
    as (att & t & arr & n & sz & _ & _ & _ & Hh).
  eapply get_pages_present.
  - rewrite Hh. apply lookup_insert_eq.
  - simpl. eauto.
Qed.

End ImportPaths.

(** ** The fault path and the user mapping *)

Section UserMapping.
Context `{Platform} (K : kernel).

(** X15.  [evdi_gem_fault] writes nothing: however it ends, the heap and the
    handle table are as they were, and it has made at most one call, to
    [vm_insert_page]. *)
Theorem evdi_gem_fault_reads_only vma vmf s :
  heap (final (evdi_gem_fault K vma vmf s)) = heap s /\
  handles (final (evdi_gem_fault K vma vmf s)) = handles s /\
  (emitted s (final (evdi_gem_fault K vma vmf s)) = [] \/
   exists va pg r,
     emitted s (final (evdi_gem_fault K vma vmf s))
     = [Call_vm_insert_page va pg r]).
Proof.
  kunfold.
  destruct (heap s !! vm_private_data vma) as [o|] eqn:Ho; kall.
  2:{ split; [reflexivity|]. split; [reflexivity|]. left.
      unfold emitted. apply drop_all. }
  destruct (pages o) as [arr|] eqn:Hp; kall.
  2:{ split; [reflexivity|]. split; [reflexivity|]. left.
      unfold emitted. apply drop_all. }
  destruct (arr !! Z.to_nat (fault_page_offset vma vmf)) as [pg|] eqn:Hpg; kall.
  2:{ split; [reflexivity|]. split; [reflexivity|]. left.
      unfold emitted. apply drop_all. }
  repeat case_decide; (split; [reflexivity|]; split; [reflexivity|]; right;
    eexists _, _, _; apply emitted_app; reflexivity).
Qed.

(** X16.  Whenever [evdi_gem_mmap] returns, it has taken the device mutex
    first and released it last, each exactly once, and the handle table is
    as it was; every object other than the one looked up is untouched. *)
Theorem evdi_gem_mmap_locking d h s res s' :
  evdi_gem_mmap K d h s = Done res s' ->
  exists l,
    emitted s s' = Call_mutex_lock d :: l ++ [Call_mutex_unlock d] /\
    count is_mutex_lock (emitted s s') = 1%nat /\
    count is_mutex_unlock (emitted s s') = 1%nat /\
    handles s' = handles s /\
    (forall p, handles s !! h <> Some p -> heap s' !! p = heap s !! p).
Proof.
  kunfold. kall.
  destruct (handles s !! h) as [obj|] eqn:Hh; kall.
  2:{ intros [= <- <-]. eexists [_]. know_emitted.
      repeat split. }
  destruct (heap s !! obj) as [o|] eqn:Ho; kall; [|intros [=]].
  assert (Hother : forall x (m : gmap addr evdi_gem_object) p,
             Some obj <> Some p -> <[obj := x]> m !! p = m !! p).
  { intros x m p Hne. apply lookup_insert_ne. intros ->. apply Hne. reflexivity. }
  destruct (pages o) as [arr|] eqn:Hp; kall.
  - match goal with |- context [drm_gem_create_mmap_offset_ret K ?t] =>
      destruct (drm_gem_create_mmap_offset_ret K t) as [r' start] eqn:Hk end.
    kall. destruct (decide (r' = 0)) as [->|Hr]; kall;
      intros [= <- <-]; know_emitted;
      (eexists [_; _; _]; split; [reflexivity|];
       split; [reflexivity|]; split; [reflexivity|]; split; [reflexivity|];
       intros p Hne; simpl; rewrite ?Hother by exact Hne; reflexivity).
  - match goal with |- context [drm_gem_get_pages_ret K ?t] =>
      destruct (drm_gem_get_pages_ret K t) as [arr|e] eqn:Hg end; kall.
    + match goal with |- context [drm_gem_create_mmap_offset_ret K ?t] =>
        destruct (drm_gem_create_mmap_offset_ret K t) as [r' start] eqn:Hk end.
      kall. destruct (decide (r' = 0)) as [->|Hr]; kall;
        intros [= <- <-]; know_emitted;
        (eexists [_; _; _; _]; split; [reflexivity|];
         split; [reflexivity|]; split; [reflexivity|]; split; [reflexivity|];
         intros p Hne; simpl; rewrite ?Hother by exact Hne; reflexivity).
    + intros [= <- <-]; know_emitted.
      eexists [_; _; _]; split; [reflexivity|].
      split; [reflexivity|]. split; [reflexivity|]. split; [reflexivity|].
      intros p Hne; simpl; rewrite ?Hother by exact Hne; reflexivity.
Qed.

End UserMapping.

(** X17.  When [drm_gem_mmap] fails, [evdi_drm_gem_mmap] returns its error and
    leaves the VMA as [drm_gem_mmap] left it.  When it succeeds,
    [evdi_drm_gem_mmap] returns [0]; in the flags [VM_PFNMAP] is then clear
    and [VM_MIXEDMAP] set, whatever [drm_gem_mmap] had set, every other
    flag is as [drm_gem_mmap] left it, and nothing else of the VMA
    changes. *)
Theorem evdi_drm_gem_mmap_flags prim vma :
  let r := fst (prim vma) in
  let vma1 := snd (prim vma) in
  let vma' := snd (evdi_drm_gem_mmap prim vma) in
  fst (evdi_drm_gem_mmap prim vma) = r /\
  (r <> 0 -> vma' = vma1) /\
  (r = 0 ->
   Z.land (vm_flags vma') VM_PFNMAP = 0 /\
   Z.land (vm_flags vma') VM_MIXEDMAP = VM_MIXEDMAP /\
   (forall n, n <> 10 -> n <> 28 ->
      Z.testbit (vm_flags vma') n = Z.testbit (vm_flags vma1) n) /\
   vm_start vma' = vm_start vma1 /\
   vm_private_data vma' = vm_private_data vma1).
Proof.
  cbv zeta. unfold evdi_drm_gem_mmap.
  destruct (prim vma) as [r vma1]. cbn [fst snd].
  destruct (decide (r <> 0)) as [Hr|Hr]; cbn [fst snd].
  - split; [reflexivity|]. split; [reflexivity|]. intros E. congruence.
  - split; [reflexivity|]. split; [intros E; destruct (Hr E)|]. intros _.
    cbn [vm_flags vm_start vm_private_data].
    assert (Hbit : forall n, 0 <= n ->
              Z.testbit (Z.lor (Z.land (vm_flags vma1) (Z.lnot VM_PFNMAP))
                           VM_MIXEDMAP) n
              = if Z.eqb n 28 then true
                else if Z.eqb n 10 then false
                else Z.testbit (vm_flags vma1) n).
    { intros n Hn. rewrite Z.lor_spec, Z.land_spec, Z.lnot_spec by exact Hn.
      change VM_PFNMAP with (2 ^ 10). change VM_MIXEDMAP with (2 ^ 28).
      rewrite !Z.pow2_bits_eqb by lia.
      rewrite (Z.eqb_sym 10 n), (Z.eqb_sym 28 n).
      destruct (n =? 28)%Z, (n =? 10)%Z, (Z.testbit (vm_flags vma1) n);
        reflexivity. }
    split.
    { apply Z.bits_inj'. intros n Hn. rewrite Z.land_spec, Hbit by exact Hn.
      change VM_PFNMAP with (2 ^ 10). rewrite Z.pow2_bits_eqb by lia.
      rewrite Z.bits_0.
      destruct (Z.eqb_spec n 28) as [->|H28]; [reflexivity|].
      destruct (Z.eqb_spec n 10) as [->|H10]; [reflexivity|].
      rewrite (proj2 (Z.eqb_neq 10 n)) by lia. apply andb_false_r. }
    split.
    { apply Z.bits_inj'. intros n Hn. rewrite Z.land_spec, Hbit by exact Hn.
      change VM_MIXEDMAP with (2 ^ 28). rewrite Z.pow2_bits_eqb by lia.
      destruct (Z.eqb_spec n 28) as [->|H28]; [reflexivity|].
      rewrite (proj2 (Z.eqb_neq 28 n)) by lia. apply andb_false_r. }
    split.
    { intros n H10 H28. destruct (Z_lt_le_dec n 0) as [Hneg|Hn].
      - rewrite !Z.testbit_neg_r by exact Hneg. reflexivity.
      - rewrite Hbit by exact Hn.
        rewrite (proj2 (Z.eqb_neq n 28)) by exact H28.
        rewrite (proj2 (Z.eqb_neq n 10)) by exact H10. reflexivity. }
    split; reflexivity.
Qed.

(** ** From creation to teardown *)

Section Lifecycle.
Context `{Platform} (K : kernel).

Lemma evdi_gem_create_state d sz s hd s1 :
  evdi_gem_create K d sz s = Done (0, Some hd) s1 ->
  heap s1 = <[fresh (dom (heap s)) :=
                fresh_object d (ulong (roundup sz PAGE_SIZE))]> (heap s) /\
  handles s1 = <[hd := fresh (dom (heap s))]> (handles s).
Proof.
  kunfold. kall.
  destruct (kzalloc_ok K (length (klog s))) eqn:Hz; kall.
  - destruct (decide (drm_gem_object_init_ret K (length (klog s) + 1) = 0))
      as [Hi|Hi]; kall.
    + destruct (drm_gem_handle_create_ret K (length (klog s) + 2))
        as [r hd'] eqn:Hh. kall.
      destruct (decide (r = 0)) as [->|Hr]; kall.
      * intros [= <- <-]. simpl. rewrite ?insert_insert_eq. split; reflexivity.
      * intros R. discriminate R.
    + unfold ENOMEM. intros [=].
  - unfold ENOMEM. intros [=].
Qed.

Lemma evdi_gem_mmap_fresh d hd s1 obj sz0 :
  handles s1 !! hd = Some obj ->
  heap s1 !! obj = Some (fresh_object d sz0) ->
  exists r off s2 o2,
    evdi_gem_mmap K d hd s1 = Done (r, off) s2 /\
    heap s2 = <[obj := o2]> (heap s1) /\
    handles s2 = handles s1 /\
    (forall e,
       drm_gem_get_pages_ret K (length (klog s1) + 2)%nat = ErrPtr e ->
       r = Z.neg e /\ off = None /\ o2 = fresh_object d sz0 /\
       emitted s1 s2 =
         [Call_mutex_lock d; Call_drm_gem_object_lookup hd (Some obj);
          Call_drm_gem_get_pages obj (ErrPtr e);
          Call_drm_gem_object_unreference obj; Call_mutex_unlock d]) /\
    (forall arr r' start,
       drm_gem_get_pages_ret K (length (klog s1) + 2)%nat = Ptr arr ->
       drm_gem_create_mmap_offset_ret K (length (klog s1) + 3)%nat
       = (r', start) ->
       emitted s1 s2 =
         [Call_mutex_lock d; Call_drm_gem_object_lookup hd (Some obj);
          Call_drm_gem_get_pages obj (Ptr arr);
          Call_drm_gem_create_mmap_offset obj r';
          Call_drm_gem_object_unreference obj; Call_mutex_unlock d] /\
       (r' <> 0 ->
        r = r' /\ off = None /\
        o2 = set_pages (Some arr) (fresh_object d sz0)) /\
       (r' = 0 ->
        r = 0 /\ off = Some (u64 (start * PAGE_SIZE)) /\
        o2 = {| base := {| dev := d; refcount := 1; obj_size := sz0;
                           import_attach := None; vma_node := Some start |};
                pages := Some arr; vmapping := None; sg := None |})).
Proof.
  intros Hh Ho. kunfold. kall.
  match goal with |- context [drm_gem_get_pages_ret K ?t] =>
    destruct (drm_gem_get_pages_ret K t) as [arr|e] eqn:Hg end; kall.
  - match goal with |- context [drm_gem_create_mmap_offset_ret K ?t] =>
      destruct (drm_gem_create_mmap_offset_ret K t) as [r' start] eqn:Hk end.
    kall. destruct (decide (r' = 0)) as [->|Hr]; kall;
      (eexists _, _, _, _; split; [reflexivity|];
       split; [simpl; rewrite ?insert_insert_eq; reflexivity|];
       split; [reflexivity|]; split; mmap_path).
  - eexists _, _, _, _; split; [reflexivity|];
       split; [simpl; rewrite ?insert_insert_eq; reflexivity|];
       split; [reflexivity|]; split; mmap_path.
Qed.

(** X18.  The handle a successful [evdi_gem_create] returns is one
    [evdi_gem_mmap] finds: the call works on the object just created and
    returns, leaving it with the one reference it had.  When it returns [0]
    the object has its pages and an offset has been written; a failed page
    allocation is returned as it came.  In full: after the creation the
    handle stands for a new object of the rounded size, with one reference,
    no pages, no mapping and no offset node.  [evdi_gem_mmap] on that handle
    locks, looks the handle up and finds that object, asks for its pages
    and, having got them, for an offset, then drops the lookup reference and
    unlocks; it changes no other object and no handle.  A failed page
    allocation is the result, with the object as it was; a failed offset
    allocation is the result, with the pages kept; on success the result is
    [0], the object holds the pages and the node the offset manager gave,
    and the offset written is that node's start in bytes. *)
Theorem evdi_gem_create_then_mmap d sz s hd s1 :
  evdi_gem_create K d sz s = Done (0, Some hd) s1 ->
  exists obj r off s2 o2,
    handles s1 !! hd = Some obj /\
    heap s !! obj = None /\
    evdi_gem_mmap K d hd s1 = Done (r, off) s2 /\
    heap s2 !! obj = Some o2 /\
    refcount (base o2) = 1 /\
    (r = 0 -> is_Some (pages o2) /\ is_Some off) /\
    (forall e,
       In (Call_drm_gem_get_pages obj (ErrPtr e)) (emitted s1 s2) ->
       r = Z.neg e /\ off = None) /\
    obj = fresh (dom (heap s)) /\
    heap s1 !! obj = Some (fresh_object d (ulong (roundup sz PAGE_SIZE))) /\
    heap s2 = <[obj := o2]> (heap s1) /\
    handles s2 = handles s1 /\
    (forall e,
       drm_gem_get_pages_ret K (length (klog s1) + 2)%nat = ErrPtr e ->
       r = Z.neg e /\ off = None /\
       o2 = fresh_object d (ulong (roundup sz PAGE_SIZE)) /\
       emitted s1 s2 =
         [Call_mutex_lock d; Call_drm_gem_object_lookup hd (Some obj);
          Call_drm_gem_get_pages obj (ErrPtr e);
          Call_drm_gem_object_unreference obj; Call_mutex_unlock d]) /\
    (forall arr r' start,
       drm_gem_get_pages_ret K (length (klog s1) + 2)%nat = Ptr arr ->
       drm_gem_create_mmap_offset_ret K (length (klog s1) + 3)%nat
       = (r', start) ->
       emitted s1 s2 =
         [Call_mutex_lock d; Call_drm_gem_object_lookup hd (Some obj);
          Call_drm_gem_get_pages obj (Ptr arr);
          Call_drm_gem_create_mmap_offset obj r';
          Call_drm_gem_object_unreference obj; Call_mutex_unlock d] /\
       (r' <> 0 ->
        r = r' /\ off = None /\
        o2 = set_pages (Some arr)
               (fresh_object d (ulong (roundup sz PAGE_SIZE)))) /\
       (r' = 0 ->
        r = 0 /\ off = Some (u64 (start * PAGE_SIZE)) /\
        o2 = {| base := {| dev := d; refcount := 1;
                           obj_size := ulong (roundup sz PAGE_SIZE);
                           import_attach := None; vma_node := Some start |};
                pages := Some arr; vmapping := None; sg := None |})).
Proof.
  intros R.
  destruct (evdi_gem_create_state d sz s hd s1 R) as [Hheap Htbl].
  set (obj := fresh (dom (heap s))) in *.
  assert (Hhd : handles s1 !! hd = Some obj)
    by (rewrite Htbl; apply lookup_insert_eq).
  assert (Ho1 : heap s1 !! obj
                = Some (fresh_object d (ulong (roundup sz PAGE_SIZE))))
    by (rewrite Hheap; apply lookup_insert_eq).
  destruct (evdi_gem_mmap_object K d hd s1 obj _ Hhd Ho1)
    as (r & off & s2 & o2 & R2 & _ & _ & Ho2 & Hrc2 & Hg & _ & Hok).
  destruct (evdi_gem_mmap_fresh d hd s1 obj _ Hhd Ho1)
    as (r3 & off3 & s3 & o3 & R3 & Hh3 & Ht3 & P1 & P2).
  rewrite R2 in R3. injection R3 as <- <- <-.
  assert (o3 = o2) as ->
    by (rewrite Hh3, lookup_insert_eq in Ho2; congruence).
  exists obj, r, off, s2, o2.
  split; [exact Hhd|].
  split; [apply not_elem_of_dom, is_fresh|].
  split; [exact R2|]. split; [exact Ho2|]. split; [exact Hrc2|].
  split; [intros Hr; destruct (Hok Hr) as [Hp ->]; split; [exact Hp | eauto]|].
  split; [exact Hg|]. split; [reflexivity|]. split; [exact Ho1|].
  split; [exact Hh3|].
  split; [exact Ht3|]. split; [exact P1 | exact P2].
Qed.

(** X19.  Pages that [evdi_gem_mmap] had allocated for a local object go
    back at teardown: after a user mapping was prepared for an object that
    had neither pages nor a kernel mapping, [evdi_gem_free_object] returns
    exactly the pages the allocator handed out, then the mmap offset, and
    leaves the object without pages. *)
Theorem evdi_gem_mmap_then_free d h s obj o arr :
  handles s !! h = Some obj ->
  heap s !! obj = Some o ->
  import_attach (base o) = None ->
  pages o = None ->
  vmapping o = None ->
  drm_gem_get_pages_ret K (length (klog s) + 2)%nat = Ptr arr ->
  exists res s1 s2 o2,
    evdi_gem_mmap K d h s = Done res s1 /\
    evdi_gem_free_object obj s1 = Done tt s2 /\
    emitted s1 s2 =
      [Call_drm_gem_put_pages obj (Some arr);
       Call_drm_gem_free_mmap_offset obj] /\
    heap s2 !! obj = Some o2 /\
    pages o2 = None /\ vmapping o2 = None /\ vma_node (base o2) = None /\
    refcount (base o2) = refcount (base o).
Proof.
  intros Hh Ho Hi Hp Hv Hg.
  assert (R1 : exists res s1 o1,
             evdi_gem_mmap K d h s = Done res s1 /\
             heap s1 !! obj = Some o1 /\
             import_attach (base o1) = None /\
             pages o1 = Some arr /\ vmapping o1 = None /\
             refcount (base o1) = refcount (base o)).
  { kunfold. kall.
    match goal with |- context [drm_gem_create_mmap_offset_ret K ?t] =>
      destruct (drm_gem_create_mmap_offset_ret K t) as [r' start] eqn:Hk end.
    kall. destruct (decide (r' = 0)) as [->|Hr]; kall;
      destruct (vma_node (base o)) eqn:Hn;
      (eexists _, _, _; split; [reflexivity|];
       split; [apply lookup_insert_eq|]; simpl;
       repeat split; try assumption; lia). }
  destruct R1 as (res & s1 & o1 & R1 & Ho1 & Hi1 & Hp1 & Hv1 & Hrc1).
  exists res, s1. rewrite R1.
  clear R1 Hg Ho Hh. kunfold. kall.
  eexists _, _. split; [reflexivity|]. split; [reflexivity|]. know_emitted.
  split; [rewrite Hp1; reflexivity|].
  split; [apply lookup_insert_eq|].
  simpl. repeat split; assumption.
Qed.

End Lifecycle.

(** ** The properties above on concrete runs *)



Lemma evdi_gem_create_whole_pages_witness :
  exists obj o',
    heap (final (evdi_gem_create (H := x86_64) willing 1%N 20000 boot)) !! obj
    = Some o' /\
    obj_size (base o') mod 4096 = 0 /\
    20000 <= obj_size (base o') < 20000 + 4096.
Proof.
  destruct (evdi_gem_create_whole_pages (H := x86_64) willing 1%N 20000 boot 1
              (final (evdi_gem_create (H := x86_64) willing 1%N 20000 boot))
              ltac:(lia) ltac:(vm_compute; discriminate)
              ltac:(vm_compute; discriminate) eq_refl)
    as (obj & o' & _ & Ho & Hm & Hb).
  exists obj, o'. repeat split; try assumption; apply Hb.
Defined.

Lemma evdi_dumb_create_holds_image_witness :
  exists obj o' args',
    heap (final (evdi_dumb_create (H := x86_64) willing 1%N small_request
                   boot)) !! obj = Some o' /\
    100 * 50 * 32 <= 8 * size args' /\
    size args' <= obj_size (base o').
Proof.
  destruct (evdi_dumb_create_holds_image (H := x86_64) willing 1%N
              small_request boot
              {| height := 50; width := 100; bpp := 32; flags := 0;
                 handle := 1; pitch := 400; size := 20000 |}
              (final (evdi_dumb_create (H := x86_64) willing 1%N small_request
                        boot))
              ltac:(simpl; lia) ltac:(simpl; lia) ltac:(simpl; lia)
              ltac:(reflexivity) ltac:(reflexivity)
              ltac:(vm_compute; discriminate) ltac:(vm_compute; discriminate)
              eq_refl)
    as (obj & o' & _ & Ho & _ & Hbits & Hsz).
  exists obj, o'. eexists. repeat split; eassumption.
Defined.

Lemma evdi_gem_vmap_imported_witness :
  exists r s',
    evdi_gem_vmap (H := x86_64) willing 7%N
      (one_object (imported_object (Some [20%N; 21%N]) None)) = Done r s' /\
    emitted (one_object (imported_object (Some [20%N; 21%N]) None)) s'
    = [Call_dma_buf_vmap the_dmabuf (Some 0xffffc90000000000)].
Proof.
  destruct (evdi_gem_vmap_imported (H := x86_64) willing 7%N
              (imported_object (Some [20%N; 21%N]) None) the_attachment
              (one_object (imported_object (Some [20%N; 21%N]) None))
              eq_refl eq_refl)
    as (r & s' & o' & R & He & Hh & _).
  exists r, s'. split; [exact R|].
  assert (E : s' = final (evdi_gem_vmap (H := x86_64) willing 7%N
                        (one_object (imported_object (Some [20%N; 21%N]) None))))
    by (rewrite R; reflexivity).
  rewrite E. reflexivity.
Defined.

Lemma evdi_gem_vmap_local_witness :
  (exists s',
     evdi_gem_vmap (H := x86_64) willing 7%N
       (one_object (local_object None None)) = Done 0 s' /\
     heap s' !! 7%N
     = Some (local_object (Some [10%N; 11%N]) (Some 0xffffc90000000000)) /\
     emitted (one_object (local_object None None)) s' =
       [Call_drm_gem_get_pages 7%N (Ptr [10%N; 11%N]);
        Call_vmap (Some [10%N; 11%N]) 2 (Some 0xffffc90000000000)]) /\
  (exists s',
     evdi_gem_vmap (H := x86_64) (with_get_pages_ret (ErrPtr 12) willing) 7%N
       (one_object (local_object None None)) = Done (- ENOMEM) s' /\
     heap s' = heap (one_object (local_object None None)) /\
     emitted (one_object (local_object None None)) s' =
       [Call_drm_gem_get_pages 7%N (ErrPtr 12)]) /\
  (exists s',
     evdi_gem_vmap (H := x86_64) (with_vmap_ret None willing) 7%N
       (one_object (local_object (Some [10%N; 11%N]) None))
     = Done (- ENOMEM) s' /\
     heap s' !! 7%N = Some (local_object (Some [10%N; 11%N]) None) /\
     emitted (one_object (local_object (Some [10%N; 11%N]) None)) s' =
       [Call_vmap (Some [10%N; 11%N]) 2 None]).
Proof.
  split; [|split].
  - destruct (evdi_gem_vmap_local (H := x86_64) willing 7%N
                (local_object None None) (one_object (local_object None None))
                eq_refl eq_refl)
      as (r & s' & o' & R & Hh & _ & _ & _ & _ & _ & _ & _ & P).
    destruct (P [10%N; 11%N] eq_refl eq_refl) as (He & -> & ->).
    exists s'. split; [exact R|]. split; [|exact He].
    rewrite Hh. apply lookup_insert_eq.
  - destruct (evdi_gem_vmap_local (H := x86_64)
                (with_get_pages_ret (ErrPtr 12) willing) 7%N
                (local_object None None) (one_object (local_object None None))
                eq_refl eq_refl)
      as (r & s' & o' & R & _ & _ & _ & _ & _ & _ & _ & P & _).
    destruct (P 12%positive eq_refl eq_refl) as (-> & _ & Hh & He).
    exists s'. repeat split; assumption.
  - destruct (evdi_gem_vmap_local (H := x86_64)
                (with_vmap_ret None willing) 7%N
                (local_object (Some [10%N; 11%N]) None)
                (one_object (local_object (Some [10%N; 11%N]) None))
                eq_refl eq_refl)
      as (r & s' & o' & R & Hh & _ & _ & _ & _ & _ & P & _).
    destruct (P [10%N; 11%N] eq_refl) as (He & -> & ->).
    exists s'. split; [exact R|]. split; [|exact He].
    rewrite Hh. apply lookup_insert_eq.
Defined.

Lemma evdi_gem_vmap_vunmap_round_trip_witness :
  exists s1 s2,
    evdi_gem_vmap (H := x86_64) willing 7%N
      (one_object (local_object None None)) = Done 0 s1 /\
    evdi_gem_vunmap 7%N s1 = Done tt s2 /\
    heap s2 = heap (one_object (local_object None None)).
Proof.
  destruct (evdi_gem_vmap_vunmap_round_trip (H := x86_64) willing 7%N
              (local_object None None) [10%N; 11%N] 0xffffc90000000000
              (one_object (local_object None None))
              eq_refl eq_refl eq_refl eq_refl eq_refl eq_refl)
    as (s1 & s2 & R1 & R2 & Hh & _).
  exists s1, s2. repeat split; assumption.
Defined.

Lemma evdi_gem_vmap_again_replaces_witness :
  exists s',
    evdi_gem_vmap (H := x86_64) willing 7%N
      (one_object (local_object (Some [10%N; 11%N]) (Some 0xffffc90000100000)))
    = Done 0 s' /\
    emitted
      (one_object (local_object (Some [10%N; 11%N]) (Some 0xffffc90000100000)))
      s'
    = [Call_vmap (Some [10%N; 11%N]) 2 (Some 0xffffc90000000000)].
Proof.
  destruct (evdi_gem_vmap_again_replaces (H := x86_64) willing 7%N
              (local_object (Some [10%N; 11%N]) (Some 0xffffc90000100000))
              [10%N; 11%N] 0xffffc90000100000 0xffffc90000000000
              (one_object (local_object (Some [10%N; 11%N])
                             (Some 0xffffc90000100000)))
              eq_refl eq_refl eq_refl eq_refl eq_refl)
    as (s' & R & _ & He).
  exists s'. split; [exact R | exact He].
Defined.

Lemma evdi_gem_release_by_ownership_witness :
  exists s3,
    evdi_gem_free_object 7%N
      (one_object (imported_object (Some [20%N; 21%N])
                     (Some 0xffffc90000000000))) = Done tt s3 /\
    count is_local_release
      (emitted (one_object (imported_object (Some [20%N; 21%N])
                              (Some 0xffffc90000000000))) s3) = 0%nat.
Proof.
  destruct (evdi_gem_release_by_ownership 7%N
              (imported_object (Some [20%N; 21%N]) (Some 0xffffc90000000000))
              (one_object (imported_object (Some [20%N; 21%N])
                             (Some 0xffffc90000000000)))
              eq_refl)
    as (s1 & s2 & s3 & _ & _ & R3 & Himp & _).
  exists s3. split; [exact R3|].
  assert (Hs : is_Some (import_attach (base (imported_object
                 (Some [20%N; 21%N]) (Some 0xffffc90000000000)))))
    by (simpl; eauto).
  pose proof (Himp Hs) as Hall.
  inversion Hall as [|? ? _ Hall2]; subst.
  inversion Hall2 as [|? ? _ Hall3]; subst.
  inversion Hall3 as [|? ? H3 _]; subst. exact H3.
Defined.

Lemma evdi_prime_create_whole_pages_witness :
  exists o' arr,
    heap (final (evdi_prime_create (H := x86_64) willing 1%N 10000 the_sg
                   boot)) !! 0%N = Some o' /\
    obj_size (base o') = 8192 /\
    pages o' = Some arr /\ length arr = 2%nat.
Proof.
  destruct (evdi_prime_create_whole_pages (H := x86_64) willing 1%N 10000
              the_sg boot 0%N
              (final (evdi_prime_create (H := x86_64) willing 1%N 10000 the_sg
                        boot))
              ltac:(vm_compute; split; [discriminate | reflexivity])
              ltac:(vm_compute; reflexivity) eq_refl)
    as (o' & arr & Ho & Hsz & _ & Hp & Hlen & _).
  exists o', arr. repeat split; assumption.
Defined.

Lemma evdi_gem_prime_import_then_free_witness :
  exists s'',
    evdi_gem_free_object 0%N
      (final (evdi_gem_prime_import (H := x86_64) willing 1%N the_dmabuf boot))
    = Done tt s'' /\
    count is_put_device (emitted boot s'') = 1%nat.
Proof.
  destruct (evdi_gem_prime_import_then_free (H := x86_64) willing 1%N
              the_dmabuf boot 0%N
              (final (evdi_gem_prime_import (H := x86_64) willing 1%N
                        the_dmabuf boot)) eq_refl)
    as (s'' & att & t & arr & o'' & _ & R & _ & _ & Hput & _).
  exists s''. split; assumption.
Defined.

Lemma evdi_gem_prime_import_then_get_pages_witness :
  evdi_gem_get_pages (with_get_pages_ret (ErrPtr 12) willing) 0%N
    (final (evdi_gem_prime_import (H := x86_64) willing 1%N the_dmabuf boot))
  = Done 0
      (final (evdi_gem_prime_import (H := x86_64) willing 1%N the_dmabuf boot)).
Proof.
  exact (evdi_gem_prime_import_then_get_pages (H := x86_64) willing
           (with_get_pages_ret (ErrPtr 12) willing) 1%N the_dmabuf boot 0%N
           (final (evdi_gem_prime_import (H := x86_64) willing 1%N the_dmabuf
                     boot)) eq_refl).
Defined.

Lemma evdi_gem_mmap_locking_witness :
  count is_mutex_unlock
    (emitted (one_object (local_object None None))
       (final (evdi_gem_mmap (H := x86_64)
                 (with_get_pages_ret (ErrPtr 12) willing) 1%N 1
                 (one_object (local_object None None))))) = 1%nat.
Proof.
  destruct (evdi_gem_mmap_locking (H := x86_64)
              (with_get_pages_ret (ErrPtr 12) willing) 1%N 1
              (one_object (local_object None None))
              (- ENOMEM, None)
              (final (evdi_gem_mmap (H := x86_64)
                        (with_get_pages_ret (ErrPtr 12) willing) 1%N 1
                        (one_object (local_object None None))))
              eq_refl)
    as (l & _ & _ & Hu & _).
  exact Hu.
Defined.

Lemma evdi_gem_create_then_mmap_witness :
  (exists s2,
     evdi_gem_mmap (H := x86_64) willing 1%N 1
       (final (evdi_gem_create (H := x86_64) willing 1%N 20000 boot))
     = Done (0, Some (u64 (0x100000 * PAGE_SIZE (H := x86_64)))) s2 /\
     heap s2 !! fresh (dom (heap boot))
     = Some {| base := {| dev := 1%N; refcount := 1; obj_size := 20480;
                          import_attach := None;
                          vma_node := Some 0x100000 |};
               pages := Some [10%N; 11%N]; vmapping := None; sg := None |}) /\
  (exists s2,
     evdi_gem_mmap (H := x86_64) (with_get_pages_ret (ErrPtr 12) willing)
       1%N 1
       (final (evdi_gem_create (H := x86_64)
                 (with_get_pages_ret (ErrPtr 12) willing) 1%N 20000 boot))
     = Done (- ENOMEM, None) s2 /\
     heap s2 !! fresh (dom (heap boot)) = Some (fresh_object 1%N 20480)) /\
  (exists s2,
     evdi_gem_mmap (H := x86_64) (with_mmap_offset_ret (-28, 0) willing)
       1%N 1
       (final (evdi_gem_create (H := x86_64)
                 (with_mmap_offset_ret (-28, 0) willing) 1%N 20000 boot))
     = Done (-28, None) s2 /\
     heap s2 !! fresh (dom (heap boot))
     = Some (set_pages (Some [10%N; 11%N]) (fresh_object 1%N 20480))).
Proof.
  split; [|split].
  - destruct (evdi_gem_create_then_mmap (H := x86_64) willing 1%N 20000 boot
                1 (final (evdi_gem_create (H := x86_64) willing 1%N 20000
                            boot)) eq_refl)
      as (obj & r & off & s2 & o2 & _ & _ & R & Ho & _ & _ & _ & -> & _ & _
          & _ & _ & P).
    destruct (P [10%N; 11%N] 0 0x100000 eq_refl eq_refl) as (_ & _ & Hok).
    destruct (Hok eq_refl) as (-> & -> & ->).
    exists s2. split; [exact R | exact Ho].
  - destruct (evdi_gem_create_then_mmap (H := x86_64)
                (with_get_pages_ret (ErrPtr 12) willing) 1%N 20000 boot
                1 (final (evdi_gem_create (H := x86_64)
                            (with_get_pages_ret (ErrPtr 12) willing) 1%N 20000
                            boot)) eq_refl)
      as (obj & r & off & s2 & o2 & _ & _ & R & Ho & _ & _ & _ & -> & _ & _
          & _ & P & _).
    destruct (P 12%positive eq_refl) as (-> & -> & -> & _).
    exists s2. split; [exact R | exact Ho].
  - destruct (evdi_gem_create_then_mmap (H := x86_64)
                (with_mmap_offset_ret (-28, 0) willing) 1%N 20000 boot
                1 (final (evdi_gem_create (H := x86_64)
                            (with_mmap_offset_ret (-28, 0) willing) 1%N 20000
                            boot)) eq_refl)
      as (obj & r & off & s2 & o2 & _ & _ & R & Ho & _ & _ & _ & -> & _ & _
          & _ & _ & P).
    destruct (P [10%N; 11%N] (-28) 0 eq_refl eq_refl) as (_ & Hf & _).
    destruct Hf as (-> & -> & ->); [discriminate|].
    exists s2. split; [exact R | exact Ho].
Defined.

Lemma evdi_gem_mmap_then_free_witness :
  exists res s1 s2,
    evdi_gem_mmap (H := x86_64) willing 1%N 1
      (one_object (local_object None None)) = Done res s1 /\
    evdi_gem_free_object 7%N s1 = Done tt s2 /\
    emitted s1 s2 =
      [Call_drm_gem_put_pages 7%N (Some [10%N; 11%N]);
       Call_drm_gem_free_mmap_offset 7%N].
Proof.
  destruct (evdi_gem_mmap_then_free (H := x86_64) willing 1%N 1
              (one_object (local_object None None)) 7%N
              (local_object None None) [10%N; 11%N]
              eq_refl eq_refl eq_refl eq_refl eq_refl eq_refl)
    as (res & s1 & s2 & o2 & R1 & R2 & He & _).
  exists res, s1, s2. repeat split; assumption.
Defined.
